(** * accelerated_segments_ffmpeg: timestamps, velocity policy, segment planner

    A shallow embedding of [src/python/accelerated_segments_ffmpeg.py].

    Conventions of the embedding.
    - A Python [int] is a [Z]; [//] and [%] by a positive divisor are
      [Z.div] and [Z.modulo].
    - A Python [str] is a [string]; its characters are read as the code
      points 0..255.  Strings with code points above 255 are outside the
      model.
    - A raised exception is a value of [exn]; code that can raise returns
      a [result].  The interpreter's optional limit on the length of
      decimal conversions is taken to be switched off.
    - The process-wide random generator, the file system and the external
      tool are an explicit [world] that is threaded through the planner.
      The [print] calls and the failures of the operating system (an
      [OSError] of [Path.exists], a closed standard output) are left
      out. *)

From Stdlib Require Import ZArith List String Ascii Bool Lia.
Import ListNotations.

Local Open Scope string_scope.
Local Open Scope Z_scope.

(** ** Exceptions and fallible results *)

(** The exceptions the program can raise.  [InvalidFormat] is the
    [ValueError] of [__post_init__] ("invalid timestamp format ..."),
    [InvalidRange] the [ValueError] of [get_vel] ("vt1 must be greater
    than vt2"), [EmptyRange] the [ValueError] of [randint] on an empty
    range, [SubprocessFailure] whatever [subprocess.check_output] raises. *)
Inductive exn : Type :=
| InvalidFormat
| InvalidRange
| IndexError
| TypeError
| ZeroDivisionError
| OverflowError
| EmptyRange
| SubprocessFailure.

Inductive result (A : Type) : Type :=
| Ok (a : A)
| Err (e : exn).

Arguments Ok {A} a.
Arguments Err {A} e.

Definition rbind {A B} (r : result A) (k : A -> result B) : result B :=
  match r with
  | Ok a => k a
  | Err e => Err e
  end.

Declare Scope result_scope.
Delimit Scope result_scope with result.
Notation "x <- r ;; k" := (rbind r (fun x => k))
  (at level 61, r at next level, right associativity) : result_scope.

(** ** Python string primitives *)

Module PyStr.

(** [s.replace(c, "")] for a one-character [c]. *)
Fixpoint remove_char (c : ascii) (s : string) : string :=
  match s with
  | EmptyString => EmptyString
  | String d s' =>
      if (d =? c)%char then remove_char c s' else String d (remove_char c s')
  end.

(** [s.split(sep)] for a one-character [sep]: always at least one field. *)
Fixpoint split (sep : ascii) (s : string) : list string :=
  match s with
  | EmptyString => [EmptyString]
  | String d s' =>
      if (d =? sep)%char then EmptyString :: split sep s'
      else match split sep s' with
           | f :: fs => String d f :: fs
           | [] => [String d EmptyString]
           end
  end.

Fixpoint forall_chars (p : ascii -> bool) (s : string) : bool :=
  match s with
  | EmptyString => true
  | String d s' => p d && forall_chars p s'
  end.

(** White space as [int()] sees it on a [str], for code points below 256:
    TAB..CR, SPACE, NEL and NBSP. *)
Definition is_space (c : ascii) : bool :=
  let n := nat_of_ascii c in
  ((9 <=? n) && (n <=? 13) || (n =? 32) || (n =? 133) || (n =? 160))%nat.

Definition digit_val (c : ascii) : option Z :=
  let n := nat_of_ascii c in
  if ((48 <=? n) && (n <=? 57))%nat then Some (Z.of_nat (n - 48)) else None.

Definition is_digit (c : ascii) : bool :=
  match digit_val c with Some _ => true | None => false end.

Fixpoint lstrip (s : string) : string :=
  match s with
  | String d s' => if is_space d then lstrip s' else s
  | EmptyString => EmptyString
  end.

(** What the digit scanner saw last. *)
Inductive prev : Type := PStart | PDigit | PUnderscore.

(** The digits of a base-10 literal: single underscores are allowed
    between digits, and only white space may follow the last digit. *)
Fixpoint scan_digits (acc : Z) (p : prev) (s : string) : option Z :=
  match s with
  | EmptyString =>
      match p with PDigit => Some acc | _ => None end
  | String d s' =>
      match digit_val d with
      | Some v => scan_digits (10 * acc + v) PDigit s'
      | None =>
          match p with
          | PDigit =>
              if (d =? "_")%char then scan_digits acc PUnderscore s'
              else if forall_chars is_space s then Some acc else None
          | _ => None
          end
      end
  end.

(** [int(s)] for a [str]; [None] stands for [ValueError]. *)
Definition py_int (s : string) : option Z :=
  match lstrip s with
  | String "+" s' => scan_digits 0 PStart s'
  | String "-" s' => option_map Z.opp (scan_digits 0 PStart s')
  | s' => scan_digits 0 PStart s'
  end.

Definition digit_char (d : Z) : ascii := ascii_of_nat (48 + Z.to_nat d).

(** Decimal digits of [n >= 0], most significant first, in front of [acc]. *)
Fixpoint digits_fuel (fuel : nat) (n : Z) (acc : string) : string :=
  match fuel with
  | O => acc
  | S f =>
      if n <? 10 then String (digit_char n) acc
      else digits_fuel f (n / 10) (String (digit_char (n mod 10)) acc)
  end.

Definition str_nat (n : Z) : string :=
  digits_fuel (S (Z.to_nat (Z.log2 n))) n EmptyString.

(** [f"{x:02d}"]: sign-aware zero padding to width two. *)
Definition format_02d (x : Z) : string :=
  if x <? 0 then String "-" (str_nat (- x))
  else if x <? 10 then String "0" (str_nat x)
  else str_nat x.

(** *** Predicates and readings used to state properties *)

(** No character of [s] is [c]. *)
Definition no_char (c : ascii) (s : string) : bool :=
  forall_chars (fun d => negb (d =? c)%char) s.

(** Every character of [s] is a decimal digit. *)
Definition digits (s : string) : bool := forall_chars is_digit s.

(** The number a string of decimal digits denotes, after [acc]. *)
Fixpoint digits_value (acc : Z) (s : string) : Z :=
  match s with
  | EmptyString => acc
  | String d s' =>
      match digit_val d with
      | Some v => digits_value (10 * acc + v) s'
      | None => acc
      end
  end.

(** [sep.join(fields)]. *)
Fixpoint join (sep : ascii) (fs : list string) : string :=
  match fs with
  | [] => EmptyString
  | [f] => f
  | f :: fs' => (f ++ String sep (join sep fs'))%string
  end.

(** White space as [str.strip()] sees it, for code points below 256:
    TAB..CR, FS..US, SPACE, NEL and NBSP. *)
Definition is_strip_space (c : ascii) : bool :=
  let n := nat_of_ascii c in
  ((9 <=? n) && (n <=? 13) || (28 <=? n) && (n <=? 32)
   || (n =? 133) || (n =? 160))%nat.

Fixpoint strip_left (s : string) : string :=
  match s with
  | String d s' => if is_strip_space d then strip_left s' else s
  | EmptyString => EmptyString
  end.

Fixpoint strip_right (s : string) : string :=
  match s with
  | EmptyString => EmptyString
  | String d s' =>
      match strip_right s' with
      | EmptyString =>
          if is_strip_space d then EmptyString else String d EmptyString
      | r => String d r
      end
  end.

(** [s.strip()]. *)
Definition strip (s : string) : string := strip_right (strip_left s).

(** The first character, if any, is not white space. *)
Definition starts_plain (s : string) : bool :=
  match s with
  | String d _ => negb (is_strip_space d)
  | EmptyString => true
  end.

End PyStr.

(** ** The timestamp value (class [VideoTimestamp]) *)

(** The sign/mode tag: the strings "+", "-" and "|". *)
Inductive ts_type : Type := Plus | Minus | Bar.

Inductive orientation_t : Type := positive | negative.

Record VideoTimestamp : Type := mkVT {
  timestamp : string;
  type : ts_type;
  hour : Z;
  minute : Z;
  second : Z;
  orientation : orientation_t
}.

Definition type_char (t : ts_type) : ascii :=
  match t with
  | Plus => "+"
  | Minus => "-"
  | Bar => "|"
  end%char.

(** Lines 27-29: the first character when it is a tag, else "|". *)
Definition type_of_char (c : ascii) : ts_type :=
  if (c =? "+")%char then Plus
  else if (c =? "-")%char then Minus
  else Bar.

(** Lines 21-24: the rendering from explicit fields. *)
Definition render (t : ts_type) (h m s : Z) : string :=
  let leading_char :=
    match t with
    | Bar => EmptyString
    | _ => String (type_char t) EmptyString
    end in
  (leading_char ++ PyStr.format_02d h ++ ":" ++ PyStr.format_02d m ++ ":"
     ++ PyStr.format_02d s)%string.

Definition of_fields (t : ts_type) (h m s : Z) (o : orientation_t)
  : VideoTimestamp :=
  mkVT (render t h m s) t h m s o.

(** [int(split_timestamp[k])] under the [try]: a [ValueError] of [int]
    is caught and raised again as [InvalidFormat]; the [IndexError] of a
    missing field is not among the caught exceptions and escapes. *)
Definition int_field (fs : list string) (k : nat) : result Z :=
  match nth_error fs k with
  | None => Err IndexError
  | Some f =>
      match PyStr.py_int f with
      | Some v => Ok v
      | None => Err InvalidFormat
      end
  end.

(** Lines 27-35: the body of the [try] on a string. *)
Definition parse_string (s : string) (o : orientation_t)
  : result VideoTimestamp :=
  match s with
  | EmptyString => Err IndexError
  | String c _ =>
      let t := type_of_char c in
      let body := PyStr.remove_char (type_char t) s in
      let split_timestamp := PyStr.split ":" body in
      (h <- int_field split_timestamp 0 ;;
       m <- int_field split_timestamp 1 ;;
       x <- int_field split_timestamp 2 ;;
       Ok (mkVT body t h m x o))%result
  end.

(** The dataclass constructor followed by [__post_init__]; [None]
    arguments are the defaults. *)
Definition post_init (ts : option string) (ty : option ts_type)
    (h m s : option Z) (o : orientation_t) : result VideoTimestamp :=
  match h, m, s, ty with
  | Some h', Some m', Some s', Some ty' => Ok (of_fields ty' h' m' s' o)
  | _, _, _, _ =>
      match ts with
      | None => Err TypeError
      | Some str => parse_string str o
      end
  end.

(** [VideoTimestamp(text)]. *)
Definition parse (text : string) : result VideoTimestamp :=
  post_init (Some text) None None None None positive.

Definition total_seconds (v : VideoTimestamp) : Z :=
  hour v * 3600 + minute v * 60 + second v.

(** The constructor call of [from_seconds] has all four fields set, so
    [__post_init__] takes its rendering branch, [of_fields]. *)
Definition from_seconds (seconds : Z) : VideoTimestamp :=
  let '(seconds, o) :=
    if seconds <? 0 then (Z.abs seconds, negative) else (seconds, positive) in
  of_fields Bar (seconds / 3600) ((seconds mod 3600) / 60) (seconds mod 60) o.

Definition plus (self vt : VideoTimestamp) : VideoTimestamp :=
  from_seconds (total_seconds self + total_seconds vt).

Definition plus_seconds (self : VideoTimestamp) (seconds : Z) : VideoTimestamp :=
  from_seconds (total_seconds self + seconds).

Definition minus_seconds (self : VideoTimestamp) (seconds : Z) : VideoTimestamp :=
  plus_seconds self (- seconds).

Definition minus (self vt : VideoTimestamp) : VideoTimestamp :=
  from_seconds (total_seconds self - total_seconds vt).

Definition lt (self other : VideoTimestamp) : bool :=
  total_seconds self <? total_seconds other.

Definition gt (self other : VideoTimestamp) : bool :=
  total_seconds self >? total_seconds other.

Definition eq (self other : VideoTimestamp) : bool :=
  total_seconds self =? total_seconds other.

Definition ge (self other : VideoTimestamp) : bool :=
  gt self other || eq self other.

Definition le (self other : VideoTimestamp) : bool :=
  lt self other || eq self other.

Definition floordiv (self other : VideoTimestamp) : result Z :=
  if total_seconds other =? 0 then Err ZeroDivisionError
  else Ok (total_seconds self / total_seconds other).

(** The right operand of [+] and [-]: [isinstance(other, int)] or a
    timestamp. *)
Inductive operand : Type :=
| OfInt (n : Z)
| OfTimestamp (vt : VideoTimestamp).

(** [__add__]. *)
Definition add (self : VideoTimestamp) (other : operand) : VideoTimestamp :=
  match other with
  | OfInt n => plus_seconds self n
  | OfTimestamp vt => plus self vt
  end.

(** [__sub__]. *)
Definition sub (self : VideoTimestamp) (other : operand) : VideoTimestamp :=
  match other with
  | OfInt n => minus_seconds self n
  | OfTimestamp vt => minus self vt
  end.

(** ** Shapes of timestamp strings

    Readings of an input string that the properties below are stated
    with; the program itself does not call them. *)

(** The tag character in front of a rendering: none for "|". *)
Definition leading (t : ts_type) : string :=
  match t with
  | Bar => EmptyString
  | _ => String (type_char t) EmptyString
  end.

(** The input with every occurrence of its tag character removed. *)
Definition body_of (s : string) : string :=
  match s with
  | EmptyString => EmptyString
  | String c _ => PyStr.remove_char (type_char (type_of_char c)) s
  end.

(** The tag that parsing gives an input. *)
Definition tag_of (s : string) : ts_type :=
  match s with
  | EmptyString => Bar
  | String c _ => type_of_char c
  end.

(** A non-empty string of decimal digits. *)
Definition digit_field (f : string) : bool :=
  match f with
  | EmptyString => false
  | _ => PyStr.digits f
  end.

(** Three fields joined by colons. *)
Definition hms (a b c : string) : string :=
  (a ++ String ":" (b ++ String ":" c))%string.



(** Whether [int] accepts a field. *)
Definition numeric (f : string) : bool :=
  match PyStr.py_int f with Some _ => true | None => false end.

(** The exceptions that parsing a string can raise. *)
Definition is_parse_error (e : exn) : bool :=
  match e with
  | IndexError | InvalidFormat => true
  | _ => false
  end.

(** Two parses agree on everything but the tag: the same string and
    fields, or the same exception. *)
Definition same_fields (x y : result VideoTimestamp) : Prop :=
  match x, y with
  | Ok a, Ok b =>
      timestamp a = timestamp b /\ hour a = hour b /\ minute a = minute b
      /\ second a = second b
  | Err e1, Err e2 => e1 = e2
  | _, _ => False
  end.

(** ** True division followed by [int()]

    [int(a / b)] on two Python ints.  [a / b] is the binary64 number
    nearest to the quotient (ties to even), [OverflowError] when that is
    not finite, and [int] truncates it.  A quotient in the subnormal
    range is rounded more coarsely than below, but it truncates to zero
    either way. *)

Definition round_half_even (n d : Z) : Z :=
  let q := n / d in
  match 2 * (n mod d) ?= d with
  | Lt => q
  | Gt => q + 1
  | Eq => if Z.even q then q else q + 1
  end.

(** The exponent [e] with [2^52 <= a / (b * 2^e) < 2^53], for [a, b > 0]. *)
Definition quot_exponent (a b : Z) : Z :=
  let d := Z.log2 a - Z.log2 b in
  (if a * 2 ^ Z.max 0 (- d) <? b * 2 ^ Z.max 0 d then d - 1 else d) - 52.

(** Mantissa and exponent of the binary64 nearest to [a / b], [a, b > 0]. *)
Definition truediv_pos (a b : Z) : result (Z * Z) :=
  let e := quot_exponent a b in
  let m := round_half_even (a * 2 ^ Z.max 0 (- e)) (b * 2 ^ Z.max 0 e) in
  if (971 <? e) || ((e =? 971) && (m =? 2 ^ 53)) then Err OverflowError
  else Ok (m, e).

Definition py_int_truediv (a b : Z) : result Z :=
  if b =? 0 then Err ZeroDivisionError
  else if a =? 0 then Ok 0
  else
    (me <- truediv_pos (Z.abs a) (Z.abs b) ;;
     let '(m, e) := me in
     let t := if 0 <=? e then m * 2 ^ e else m / 2 ^ (- e) in
     Ok (Z.sgn a * Z.sgn b * t))%result.

(** [int(self / other)]: [__truediv__] under the [int] of line 162. *)
Definition truediv_int (self other : VideoTimestamp) : result Z :=
  py_int_truediv (total_seconds self) (total_seconds other).

(** ** The segment planner *)

(** The arguments of one [ffmpeg_cmd] call.  The argument list it returns
    is these strings in fixed positions around a filter expression that
    prints [round(1 / velocity, 2)] and [float(velocity)]; the printing
    of floats is left out and the integer velocity kept. *)
Record segment : Type := mkSeg {
  seg_input : string;
  seg_output : string;
  seg_start : string;
  seg_to : string;
  seg_velocity : Z
}.

Inductive seg_kind : Type := RestSeg | VelSeg.

(** What the planner did, oldest first: a command was built by
    [ffmpeg_cmd], or handed to [subprocess.check_output]. *)
Inductive event : Type :=
| Built (k : seg_kind) (c : segment)
| Ran (k : seg_kind) (c : segment).

Record world : Type := mkWorld {
  draws : nat;          (* how many numbers the generator has produced *)
  files : list string;  (* the paths that exist *)
  trace : list event
}.

Definition M (A : Type) : Type := world -> result A * world.

Definition ret {A} (a : A) : M A := fun w => (Ok a, w).

Definition raise {A} (e : exn) : M A := fun w => (Err e, w).

Definition bind {A B} (c : M A) (k : A -> M B) : M B :=
  fun w =>
    match c w with
    | (Ok a, w') => k a w'
    | (Err e, w') => (Err e, w')
    end.

Definition lift {A} (r : result A) : M A := fun w => (r, w).

Declare Scope planner_scope.
Delimit Scope planner_scope with M.
Notation "x <- c ;; k" := (bind c (fun x => k))
  (at level 61, c at next level, right associativity) : planner_scope.

Definition log (e : event) : M unit :=
  fun w => (Ok tt, mkWorld (draws w) (files w) (trace w ++ [e])).

(** [round(1 / velocity, 2)] divides by zero when [velocity] is [0];
    [float(velocity)] overflows from [2^1024 - 2^970] on. *)
Definition ffmpeg_cmd (input output start to : string) (velocity : Z)
  : result segment :=
  if velocity =? 0 then Err ZeroDivisionError
  else if 2 ^ 1024 - 2 ^ 970 <=? Z.abs velocity then Err OverflowError
  else Ok (mkSeg input output start to velocity).

(** [parse_timestamps], from the text that [f.read()] returns: the
    non-empty lines, each stripped afterwards. *)
Definition newline : ascii := "010"%char.

Definition parse_timestamps (txt : string) : list string :=
  map PyStr.strip
    (filter (fun line => negb (line =? EmptyString)%string)
       (PyStr.split newline txt)).

(** A line that [parse_timestamps] gives back as it is: not empty, no
    line break inside, no white space at either end. *)
Definition plain_line (l : string) : Prop :=
  l <> EmptyString /\ PyStr.no_char newline l = true /\ PyStr.strip l = l.

Section Planner.

(** The [k]-th number of the process-wide generator, before it is
    reduced to the range that was asked for. *)
Variable raw : nat -> Z.

(** The external tool: whether it exits with status zero, and the paths
    that exist afterwards. *)
Variable run_tool : segment -> list string -> bool * list string.

(** [str(Path(input_file))], its [stem] and [suffix], and
    [str(out_folder / name)]. *)
Variables (input_file stem suffix : string) (in_out_folder : string -> string).

(** [random.randint(a, b)]: any integer of [a..b]; an empty range raises. *)
Definition randint (a b : Z) : M Z :=
  fun w =>
    if b <? a then (Err EmptyRange, w)
    else (Ok (a + raw (draws w) mod (b - a + 1)),
          mkWorld (S (draws w)) (files w) (trace w)).

Definition get_vel (vt1 vt2 : VideoTimestamp)
    (min_speed_duration max_speed_duration : string) : M Z :=
  if total_seconds (minus vt1 vt2) <? 0 then raise InvalidRange
  else
    (min_speed_duration <- lift (parse min_speed_duration) ;;
     if le (minus vt2 vt1) min_speed_duration then ret 1
     else
       max_speed_duration <- lift (parse max_speed_duration) ;;
       h <- randint (hour min_speed_duration) (hour max_speed_duration) ;;
       m <- randint (minute min_speed_duration) (minute max_speed_duration) ;;
       s <- randint (second min_speed_duration) (second max_speed_duration) ;;
       random_duration <-
         lift (post_init None (Some Bar) (Some h) (Some m) (Some s) positive) ;;
       lift (truediv_int (minus vt2 vt1) random_duration))%M.

Definition default_min_speed_duration : string := "00:00:10".
Definition default_max_speed_duration : string := "00:00:30".

(** [subprocess.check_output(cmd)]. *)
Definition check_output (k : seg_kind) (c : segment) : M unit :=
  fun w =>
    let '(ok, files') := run_tool c (files w) in
    let w' := mkWorld (draws w) files' (trace w ++ [Ran k c]) in
    if ok then (Ok tt, w') else (Err SubprocessFailure, w').

(** [path.exists()] on a path of the output folder; a failure of the
    file system itself ([OSError]) is outside the model. *)
Definition path_exists (path : string) : M bool :=
  fun w => (Ok (existsb (String.eqb path) (files w)), w).

Definition out_file (i : nat) (part : string) : string :=
  in_out_folder
    (stem ++ "_" ++ PyStr.str_nat (Z.of_nat i) ++ "_" ++ part ++ suffix)%string.

(** One turn of the loop of [process_video] (lines 173-214), on
    [timestamps[i]] and [timestamps[i + 1]]. *)
Definition pair_step (rest_time offset : VideoTimestamp) (i : nat)
    (t1 t2 : string) : M unit :=
  (let out_file_vel := out_file i "2" in
   let out_file_rest := out_file i "1" in
   p1 <- lift (parse t1) ;;
   let vt1 := minus p1 offset in
   p2 <- lift (parse t2) ;;
   let vt2 := minus p2 offset in
   v <- get_vel (plus vt1 rest_time) vt2
          default_min_speed_duration default_max_speed_duration ;;
   let vel := Z.min v 70 in
   let '(rest_to_ts, vel) :=
     if total_seconds (minus vt2 vt1) <? 25 then (timestamp vt2, 1)
     else (timestamp (plus vt1 rest_time), vel) in
   cmd_rest_seg <-
     lift (ffmpeg_cmd input_file out_file_rest (timestamp vt1) rest_to_ts 1) ;;
   _ <- log (Built RestSeg cmd_rest_seg) ;;
   _ <- (if total_seconds (minus vt2 vt1) >? 25 then
           cmd_vel_seg <-
             lift (ffmpeg_cmd input_file out_file_vel
                     (timestamp (plus vt1 rest_time)) (timestamp vt2) vel) ;;
           _ <- log (Built VelSeg cmd_vel_seg) ;;
           present <- path_exists out_file_vel ;;
           if negb present then check_output VelSeg cmd_vel_seg else ret tt
         else ret tt) ;;
   present <- path_exists out_file_rest ;;
   if negb present then check_output RestSeg cmd_rest_seg else ret tt)%M.

(** The [for] loop: [i] runs over [range(len(timestamps) - 1)]. *)
Fixpoint segments_loop (rest_time offset : VideoTimestamp) (i : nat)
    (timestamps : list string) : M unit :=
  match timestamps with
  | t1 :: ((t2 :: _) as later) =>
      (_ <- pair_step rest_time offset i t1 t2 ;;
       segments_loop rest_time offset (S i) later)%M
  | _ => ret tt
  end.

Definition process_video (timestamps : list string) (rest_time : string)
  : M unit :=
  (offset <- lift (parse "00:00:00") ;;
   rest_time <- lift (parse rest_time) ;;
   segments_loop rest_time offset 0 timestamps)%M.

(** *** The trace of a run

    Predicates on the trace that the properties of whole runs are
    stated with. *)

(** An accelerated segment runs from [vt1 + rest_time] to [vt2] at the
    velocity [min(get_vel(vt1 + rest_time, vt2), 70)], which is between
    1 and 70. *)
Definition vel_seg_ok (c : segment) : Prop :=
  1 <= seg_velocity c <= 70
  /\ exists vt1 vt2 rest_time w0 w1 v,
       get_vel (plus vt1 rest_time) vt2
         default_min_speed_duration default_max_speed_duration w0 = (Ok v, w1)
       /\ seg_velocity c = Z.min v 70
       /\ seg_start c = timestamp (plus vt1 rest_time)
       /\ seg_to c = timestamp vt2.

(** Rest segments are at velocity 1. *)
Definition event_ok (e : event) : Prop :=
  match e with
  | Built VelSeg c | Ran VelSeg c => vel_seg_ok c
  | Built RestSeg c | Ran RestSeg c => seg_velocity c = 1
  end.

Definition inv (w : world) : Prop := Forall event_ok (trace w).

(** [c] keeps the invariant of the trace, also when it raises, and a
    value it returns satisfies [Q]. *)
Definition triple {A} (c : M A) (Q : A -> Prop) : Prop :=
  forall w, inv w ->
    inv (snd (c w)) /\ (forall a, fst (c w) = Ok a -> Q a).

(** [if not path.exists(): subprocess.check_output(cmd)]. *)
Definition run_unless_present (k : seg_kind) (c : segment) : M unit :=
  (present <- path_exists (seg_output c) ;;
   if negb present then check_output k c else ret tt)%M.

(** The world after [e] is appended to its trace. *)
Definition built (e : event) (w : world) : world :=
  mkWorld (draws w) (files w) (trace w ++ [e]).

End Planner.

Definition init_world (existing : list string) : world :=
  mkWorld 0 existing [].

(** The external tool of the examples: it succeeds and creates its
    output file. *)
Definition tool_creates_output (c : segment) (fs : list string)
  : bool * list string :=
  (true, seg_output c :: fs).

(** *** The accelerated segment of a pair

    [on_vel P e]: an accelerated command satisfies [P], a rest command is
    at velocity 1. *)
Definition on_vel (P : segment -> Prop) (e : event) : Prop :=
  match e with
  | Built VelSeg c | Ran VelSeg c => P c
  | Built RestSeg c | Ran RestSeg c => seg_velocity c = 1
  end.

(** [c] is the accelerated command of the pair [t1], [t2] with index [i],
    when the turn of the loop for that pair starts in the world [w]:
    with [vt1] and [vt2] the two timestamps less the offset, it runs from
    [vt1 + rest_time] to [vt2] at the velocity [min(v, 70)], where [v] is
    what [get_vel(vt1 + rest_time, vt2)] returns in [w]. *)
Definition pair_vel_seg (raw : nat -> Z) (input_file stem suffix : string)
    (in_out_folder : string -> string) (rest_time offset : VideoTimestamp)
    (i : nat) (t1 t2 : string) (w : world) (c : segment) : Prop :=
  exists p1 p2 v w1,
    parse t1 = Ok p1 /\ parse t2 = Ok p2
    /\ get_vel raw (plus (minus p1 offset) rest_time) (minus p2 offset)
         default_min_speed_duration default_max_speed_duration w = (Ok v, w1)
    /\ c = mkSeg input_file (out_file stem suffix in_out_folder i "2")
             (timestamp (plus (minus p1 offset) rest_time))
             (timestamp (minus p2 offset)) (Z.min v 70)
    /\ 1 <= Z.min v 70 <= 70.

(** [c] is the accelerated command of some pair [k] of the run of
    [process_video] on [timestamps] and [rest_time] from [existing]
    files.  The turn for pair [k] starts in the world in which the run
    on the first [k + 1] timestamps, that is on the pairs before [k],
    ends. *)
Definition run_vel_seg (raw : nat -> Z)
    (run_tool : segment -> list string -> bool * list string)
    (input_file stem suffix : string) (in_out_folder : string -> string)
    (timestamps : list string) (rest_time : string) (existing : list string)
    (c : segment) : Prop :=
  exists k t1 t2 offset rest,
    nth_error timestamps k = Some t1 /\ nth_error timestamps (S k) = Some t2
    /\ parse "00:00:00" = Ok offset /\ parse rest_time = Ok rest
    /\ pair_vel_seg raw input_file stem suffix in_out_folder rest offset k t1 t2
         (snd
            (process_video raw run_tool input_file stem suffix in_out_folder
               (firstn (S k) timestamps) rest_time (init_world existing)))
         c.

(** *** Reasoning about runs

    [hoare P c Q E]: from a world in [P], [c] ends in [Q] when it
    returns and in [E] when it raises. *)
Definition hoare {A} (P : world -> Prop) (c : M A)
    (Q : A -> world -> Prop) (E : exn -> world -> Prop) : Prop :=
  forall w, P w ->
    match c w with
    | (Ok a, w') => Q a w'
    | (Err e, w') => E e w'
    end.

(** The last part of an output name: "1" for rest, "2" for accelerated. *)
Definition part_of (k : seg_kind) : string :=
  match k with
  | RestSeg => "1"
  | VelSeg => "2"
  end.

Definition event_kind (e : event) : seg_kind :=
  match e with Built k _ | Ran k _ => k end.

Definition event_segment (e : event) : segment :=
  match e with Built _ c | Ran _ c => c end.

(** A command of the planner: it reads the input file, writes the output
    named after some pair and its kind, and its two seek positions are
    strings made by [from_seconds]. *)
Definition well_formed (input_file stem suffix : string)
    (in_out_folder : string -> string) (e : event) : Prop :=
  seg_input (event_segment e) = input_file
  /\ (exists i, seg_output (event_segment e)
                = out_file stem suffix in_out_folder i (part_of (event_kind e)))
  /\ (exists n, seg_start (event_segment e) = timestamp (from_seconds n))
  /\ (exists n, seg_to (event_segment e) = timestamp (from_seconds n)).

(** How many commands of kind [k] were built. *)
Fixpoint count_built (k : seg_kind) (t : list event) : nat :=
  match t with
  | [] => 0
  | Built RestSeg _ :: t' =>
      match k with RestSeg => S (count_built k t') | VelSeg => count_built k t' end
  | Built VelSeg _ :: t' =>
      match k with VelSeg => S (count_built k t') | RestSeg => count_built k t' end
  | Ran _ _ :: t' => count_built k t'
  end.

(** The exceptions a run of the planner can end with. *)
Definition is_planner_error (e : exn) : bool :=
  match e with
  | InvalidFormat | IndexError | ZeroDivisionError | OverflowError
  | SubprocessFailure => true
  | InvalidRange | TypeError | EmptyRange => false
  end.

(** * Properties *)

(** ** Executions on concrete inputs *)

Example split_ex : PyStr.split ":" "01:2::x" = ["01"; "2"; ""; "x"].
Proof. reflexivity. Qed.

Example py_int_ex :
  map PyStr.py_int
    [" 12 "; "-7"; "1_000"; "1__0"; "_1"; "1_"; ""; "+"; "0x1"; "007"]
  = [Some 12; Some (-7); Some 1000; None; None; None; None; None; None;
     Some 7].
Proof. reflexivity. Qed.

Example format_02d_ex :
  map PyStr.format_02d [0; 7; 10; 123; -5; -12]
  = ["00"; "07"; "10"; "123"; "-5"; "-12"].
Proof. reflexivity. Qed.

Example py_int_truediv_ex :
  map (fun p => py_int_truediv (fst p) (snd p))
    [(15, 30); (35, 10); (30, 30); (-7, 2); (2 ^ 60 - 1, 2 ^ 60);
     (10 ^ 400, 3); (1, 0)]
  = [Ok 0; Ok 3; Ok 1; Ok (-3); Ok 1; Err OverflowError;
     Err ZeroDivisionError].
Proof. vm_compute. reflexivity. Qed.

(** A missing field raises [IndexError], which the [except] clause of
    [__post_init__] does not catch. *)
Example parse_two_fields : parse "12:34" = Err IndexError.
Proof. reflexivity. Qed.

Example parse_empty : parse "" = Err IndexError.
Proof. reflexivity. Qed.

Example parse_negative_field :
  parse "00:-5:00" = Ok (mkVT "00:-5:00" Bar 0 (-5) 0 positive).
Proof. reflexivity. Qed.

(** ** Arithmetic on timestamps *)

Lemma hms_recompose (s : Z) :
  s / 3600 * 3600 + s mod 3600 / 60 * 60 + s mod 60 = s.
Proof.
  pose proof (Z.div_mod s 3600 ltac:(lia)) as H1.
  pose proof (Z.div_mod (s mod 3600) 60 ltac:(lia)) as H2.
  assert (H3 : (s mod 3600) mod 60 = s mod 60).
  { rewrite H1 at 2.
    replace (3600 * (s / 3600)) with (60 * (s / 3600) * 60) by lia.
    rewrite Z.add_comm, Z_mod_plus_full. reflexivity. }
  lia.
Qed.

Lemma total_seconds_of_fields t h m s o :
  total_seconds (of_fields t h m s o) = h * 3600 + m * 60 + s.
Proof. reflexivity. Qed.

Lemma from_seconds_nonneg (n : Z) :
  0 <= n ->
  from_seconds n = of_fields Bar (n / 3600) (n mod 3600 / 60) (n mod 60) positive.
Proof.
  intros Hn. unfold from_seconds.
  destruct (Z.ltb_spec n 0); [lia | reflexivity].
Qed.

Lemma from_seconds_neg (n : Z) :
  n < 0 ->
  from_seconds n =
  of_fields Bar (Z.abs n / 3600) (Z.abs n mod 3600 / 60) (Z.abs n mod 60)
    negative.
Proof.
  intros Hn. unfold from_seconds.
  destruct (Z.ltb_spec n 0); [reflexivity | lia].
Qed.

Lemma total_seconds_from_seconds (n : Z) :
  total_seconds (from_seconds n) = Z.abs n.
Proof.
  destruct (Z.lt_ge_cases n 0) as [Hn | Hn].
  - rewrite (from_seconds_neg n Hn), total_seconds_of_fields.
    apply hms_recompose.
  - rewrite (from_seconds_nonneg n Hn), total_seconds_of_fields.
    rewrite hms_recompose. lia.
Qed.

Lemma total_seconds_minus (a b : VideoTimestamp) :
  total_seconds (minus a b) = Z.abs (total_seconds a - total_seconds b).
Proof. apply total_seconds_from_seconds. Qed.

Lemma total_seconds_plus (a b : VideoTimestamp) :
  total_seconds (plus a b) = Z.abs (total_seconds a + total_seconds b).
Proof. apply total_seconds_from_seconds. Qed.

(** C7: [from_seconds n] has [total_seconds] equal to [abs n], its fields
    are the decomposition of [abs n] by 3600 and 60, its orientation is
    negative exactly when [n < 0], and its tag is always "|". *)
Theorem from_seconds_spec (n : Z) :
  total_seconds (from_seconds n) = Z.abs n
  /\ hour (from_seconds n) = Z.abs n / 3600
  /\ minute (from_seconds n) = Z.abs n mod 3600 / 60
  /\ second (from_seconds n) = Z.abs n mod 60
  /\ (orientation (from_seconds n) = negative <-> n < 0)
  /\ type (from_seconds n) = Bar.
Proof.
  split; [apply total_seconds_from_seconds |].
  destruct (Z.lt_ge_cases n 0) as [Hn | Hn].
  - rewrite (from_seconds_neg n Hn). cbn. intuition.
  - rewrite (from_seconds_nonneg n Hn). cbn.
    rewrite (Z.abs_eq n Hn). intuition (discriminate || lia).
Qed.

(** The exact value of [(a - b) + b]. *)
Lemma total_seconds_minus_plus (a b : VideoTimestamp) :
  total_seconds (plus (minus a b) b)
  = Z.abs (Z.abs (total_seconds a - total_seconds b) + total_seconds b).
Proof. now rewrite total_seconds_plus, total_seconds_minus. Qed.

(** [(a - b) + b] gives back [a] in exactly one case. *)
Lemma minus_plus_iff (a b : VideoTimestamp) :
  total_seconds (plus (minus a b) b) = total_seconds a
  <-> total_seconds b <= total_seconds a /\ 0 <= total_seconds a.
Proof. rewrite total_seconds_minus_plus. lia. Qed.

(** C6, as amended: when [a] is not before [b] and [a] is not negative,
    [(a - b) + b] has the [total_seconds] of [a]. *)
Theorem minus_plus_same_total (a b : VideoTimestamp) :
  total_seconds b <= total_seconds a ->
  0 <= total_seconds a ->
  total_seconds (plus (minus a b) b) = total_seconds a.
Proof. intros Hab Ha. apply minus_plus_iff. split; assumption. Qed.

Lemma minus_plus_same_total_witness :
  total_seconds (plus (minus (from_seconds 10) (from_seconds 5)) (from_seconds 5))
  = total_seconds (from_seconds 10).
Proof.
  apply (minus_plus_same_total (from_seconds 10) (from_seconds 5));
    vm_compute; discriminate.
Defined.

(** C6, as stated, fails: with [a] at 5 s and [b] at 10 s, [(a - b) + b]
    is at 15 s. *)
Lemma minus_plus_counterexample :
  total_seconds (from_seconds 5) = 5
  /\ total_seconds
       (plus (minus (from_seconds 5) (from_seconds 10)) (from_seconds 10)) = 15
  /\ total_seconds
       (plus (minus (from_seconds 5) (from_seconds 10)) (from_seconds 10))
     <> total_seconds (from_seconds 5).
Proof. repeat split. vm_compute. discriminate. Qed.

(** ** Velocity selection *)

Section GetVel.

Variable raw : nat -> Z.

Lemma parse_default_min :
  parse default_min_speed_duration = Ok (mkVT "00:00:10" Bar 0 0 10 positive).
Proof. reflexivity. Qed.

Lemma parse_default_max :
  parse default_max_speed_duration = Ok (mkVT "00:00:30" Bar 0 0 30 positive).
Proof. reflexivity. Qed.

(** The test of line 149 is on a difference that [from_seconds] has
    already made non-negative: it never holds. *)
Lemma range_guard_false (vt1 vt2 : VideoTimestamp) :
  (total_seconds (minus vt1 vt2) <? 0) = false.
Proof.
  apply Z.ltb_ge. rewrite total_seconds_minus. apply Z.abs_nonneg.
Qed.

Lemma le_leb (a b : VideoTimestamp) :
  le a b = (total_seconds a <=? total_seconds b).
Proof.
  unfold le, lt, eq.
  destruct (Z.ltb_spec (total_seconds a) (total_seconds b));
    destruct (Z.eqb_spec (total_seconds a) (total_seconds b));
    destruct (Z.leb_spec (total_seconds a) (total_seconds b));
    cbn; lia || reflexivity.
Qed.

Lemma get_vel_short (vt1 vt2 : VideoTimestamp) (mx : string) (w : world) :
  total_seconds (minus vt2 vt1) <= 10 ->
  get_vel raw vt1 vt2 default_min_speed_duration mx w = (Ok 1, w).
Proof.
  intros Hd. unfold get_vel. rewrite range_guard_false.
  unfold bind, lift. rewrite parse_default_min, le_leb.
  change (total_seconds (mkVT "00:00:10" Bar 0 0 10 positive)) with 10.
  destruct (Z.leb_spec (total_seconds (minus vt2 vt1)) 10); [reflexivity | lia].
Qed.

(** With the default durations the random duration is of 10 to 30
    seconds, and the result is the truncated quotient by it. *)
Lemma get_vel_long (vt1 vt2 : VideoTimestamp) (w : world) :
  10 < total_seconds (minus vt2 vt1) ->
  exists d, 10 <= d <= 30 /\
    get_vel raw vt1 vt2 default_min_speed_duration default_max_speed_duration w
    = (py_int_truediv (total_seconds (minus vt2 vt1)) d,
       mkWorld (3 + draws w) (files w) (trace w)).
Proof.
  intros Hd. unfold get_vel. rewrite range_guard_false.
  unfold bind at 1. unfold lift at 1. rewrite parse_default_min, le_leb.
  change (total_seconds (mkVT "00:00:10" Bar 0 0 10 positive)) with 10.
  destruct (Z.leb_spec (total_seconds (minus vt2 vt1)) 10); [lia |].
  unfold bind at 1. unfold lift at 1. rewrite parse_default_max.
  cbn [hour minute second].
  exists (10 + raw (S (S (draws w))) mod 21). split.
  - pose proof (Z.mod_pos_bound (raw (S (S (draws w)))) 21 ltac:(lia)). lia.
  - unfold bind, randint, lift, post_init, truediv_int. cbn.
    rewrite !Z.mod_1_r. cbn. reflexivity.
Qed.

Lemma int_field_not_range (fs : list string) (k : nat) :
  int_field fs k <> Err InvalidRange.
Proof.
  unfold int_field. destruct (nth_error fs k) as [f |]; [| discriminate].
  destruct (PyStr.py_int f); discriminate.
Qed.

Lemma rbind_not_range {A B} (r : result A) (k : A -> result B) :
  r <> Err InvalidRange ->
  (forall a, k a <> Err InvalidRange) ->
  rbind r k <> Err InvalidRange.
Proof.
  intros Hr Hk. destruct r as [a | e]; cbn; [apply Hk |].
  intros E. apply Hr. injection E as ->. reflexivity.
Qed.

Lemma parse_not_range (s : string) : parse s <> Err InvalidRange.
Proof.
  unfold parse, post_init, parse_string. destruct s as [| c s]; [discriminate |].
  repeat (apply rbind_not_range; [apply int_field_not_range | intros ?]).
  discriminate.
Qed.

Lemma py_int_truediv_not_range (a b : Z) :
  py_int_truediv a b <> Err InvalidRange.
Proof.
  unfold py_int_truediv, truediv_pos.
  destruct (b =? 0); [discriminate |]. destruct (a =? 0); [discriminate |].
  destruct (_ || _); cbn; discriminate.
Qed.

(** Whatever its arguments, [get_vel] never raises [InvalidRange]. *)
Lemma get_vel_never_invalid_range (vt1 vt2 : VideoTimestamp)
    (mn mx : string) (w : world) :
  fst (get_vel raw vt1 vt2 mn mx w) <> Err InvalidRange.
Proof.
  unfold get_vel. rewrite range_guard_false. unfold bind, lift.
  pose proof (parse_not_range mn) as Hmn.
  destruct (parse mn) as [dmin | e];
    [| cbn; intros E; injection E as ->; now apply Hmn].
  destruct (le (minus vt2 vt1) dmin); [discriminate |].
  pose proof (parse_not_range mx) as Hmx.
  destruct (parse mx) as [dmax | e];
    [| cbn; intros E; injection E as ->; now apply Hmx].
  unfold randint.
  destruct (hour dmax <? hour dmin); [discriminate |].
  cbn [draws files trace].
  destruct (minute dmax <? minute dmin); [discriminate |].
  destruct (second dmax <? second dmin); [discriminate |].
  cbn -[py_int_truediv Z.modulo]. apply py_int_truediv_not_range.
Qed.

(** C1 at its own example: [get_vel] on 00:00:05 and 00:00:10 does not
    fail, it returns 1, whatever the generator and the world. *)
Theorem get_vel_5_10_returns_1 (w : world) :
  exists a b,
    parse "00:00:05" = Ok a /\ parse "00:00:10" = Ok b
    /\ total_seconds a < total_seconds b
    /\ get_vel raw a b default_min_speed_duration default_max_speed_duration w
       = (Ok 1, w).
Proof.
  eexists; eexists.
  split; [reflexivity |]. split; [reflexivity |]. split; [reflexivity |].
  apply get_vel_short. vm_compute. discriminate.
Qed.

(** C8: with the default minimum duration, [get_vel] returns 1 whenever
    [(b - a).total_seconds] is at most 10. *)
Theorem get_vel_short_gap_is_1 (a b : VideoTimestamp) (mx : string) (w : world) :
  total_seconds (minus b a) <= 10 ->
  get_vel raw a b default_min_speed_duration mx w = (Ok 1, w).
Proof. apply get_vel_short. Qed.

End GetVel.

Lemma get_vel_short_gap_is_1_witness :
  get_vel (fun _ => 0) (from_seconds 20) (from_seconds 27)
    default_min_speed_duration default_max_speed_duration (init_world [])
  = (Ok 1, init_world []).
Proof.
  apply (get_vel_short_gap_is_1 (fun _ => 0) (from_seconds 20) (from_seconds 27)).
  vm_compute. discriminate.
Defined.

(** ** Facts about the string primitives *)

Module PyStrFacts.
Import PyStr.

Lemma forall_chars_app (p : ascii -> bool) (s1 s2 : string) :
  forall_chars p (s1 ++ s2) = forall_chars p s1 && forall_chars p s2.
Proof.
  induction s1 as [| d s1 IH]; cbn; [reflexivity |].
  now rewrite IH, andb_assoc.
Qed.

Lemma forall_chars_impl (p q : ascii -> bool) (s : string) :
  (forall d, p d = true -> q d = true) ->
  forall_chars p s = true -> forall_chars q s = true.
Proof.
  intros Hpq. induction s as [| d s IH]; cbn; [reflexivity |].
  intros [Hd Hs]%andb_prop. rewrite (Hpq d Hd). now apply IH.
Qed.

Lemma remove_char_app (c : ascii) (s1 s2 : string) :
  remove_char c (s1 ++ s2) = (remove_char c s1 ++ remove_char c s2)%string.
Proof.
  induction s1 as [| d s1 IH]; cbn; [reflexivity |].
  destruct (d =? c)%char; cbn; now rewrite IH.
Qed.

Lemma remove_char_head (c : ascii) (s : string) :
  remove_char c (String c s) = remove_char c s.
Proof. cbn. now rewrite Ascii.eqb_refl. Qed.

Lemma remove_char_absent (c : ascii) (s : string) :
  no_char c s = true -> remove_char c s = s.
Proof.
  induction s as [| d s IH]; cbn; [reflexivity |].
  intros [Hd Hs]%andb_prop. destruct (d =? c)%char; [discriminate |].
  now rewrite (IH Hs).
Qed.

Lemma no_char_remove (c : ascii) (s : string) :
  no_char c (remove_char c s) = true.
Proof.
  induction s as [| d s IH]; cbn; [reflexivity |].
  destruct (d =? c)%char eqn:E; [exact IH |].
  cbn. fold (no_char c (remove_char c s)). now rewrite E, IH.
Qed.

Lemma split_not_nil (sep : ascii) (s : string) : split sep s <> [].
Proof.
  destruct s as [| d s]; cbn; [discriminate |].
  destruct (d =? sep)%char; [discriminate |].
  destruct (split sep s); discriminate.
Qed.

Lemma split_absent (sep : ascii) (s : string) :
  no_char sep s = true -> split sep s = [s].
Proof.
  induction s as [| d s IH]; cbn; [reflexivity |].
  intros [Hd Hs]%andb_prop. destruct (d =? sep)%char; [discriminate |].
  now rewrite (IH Hs).
Qed.

Lemma split_app_sep (sep : ascii) (a b : string) :
  no_char sep a = true ->
  split sep (a ++ String sep b) = a :: split sep b.
Proof.
  induction a as [| d a IH]; cbn.
  - intros _. now rewrite Ascii.eqb_refl.
  - intros [Hd Ha]%andb_prop. destruct (d =? sep)%char; [discriminate |].
    now rewrite (IH Ha).
Qed.


Lemma split_fields_no_sep (sep : ascii) (s : string) :
  forallb (no_char sep) (split sep s) = true.
Proof.
  induction s as [| d s IH]; cbn; [reflexivity |].
  destruct (d =? sep)%char eqn:E; [exact IH |].
  pose proof (split_not_nil sep s) as Hne.
  destruct (split sep s) as [| f fs]; [contradiction |].
  cbn in IH |- *. fold (no_char sep f). now rewrite E.
Qed.

(** *** Digits *)

Lemma digit_char_val (d : Z) :
  0 <= d < 10 -> digit_val (digit_char d) = Some d.
Proof.
  intros Hd.
  assert (H : d = 0 \/ d = 1 \/ d = 2 \/ d = 3 \/ d = 4 \/ d = 5 \/ d = 6
              \/ d = 7 \/ d = 8 \/ d = 9) by lia.
  repeat (destruct H as [-> | H]; [reflexivity |]). now subst d.
Qed.

(** A digit is neither white space, nor a sign, a tag, a colon or an
    underscore. *)
Lemma digit_shape (d : ascii) :
  is_digit d = true ->
  is_space d = false
  /\ (d =? "+")%char = false /\ (d =? "-")%char = false
  /\ (d =? "|")%char = false /\ (d =? ":")%char = false
  /\ (d =? "_")%char = false.
Proof.
  destruct d as [[] [] [] [] [] [] [] []]; intros H;
    solve [discriminate H | repeat split].
Qed.

Lemma digit_val_range (d : ascii) (v : Z) :
  digit_val d = Some v -> 0 <= v < 10.
Proof.
  unfold digit_val.
  destruct ((48 <=? nat_of_ascii d)%nat && (nat_of_ascii d <=? 57)%nat) eqn:E;
    [| discriminate].
  intros [= <-]. apply andb_prop in E as [E1 E2].
  apply Nat.leb_le in E1. apply Nat.leb_le in E2. lia.
Qed.

Lemma is_digit_val (d : ascii) :
  is_digit d = true -> exists v, digit_val d = Some v /\ 0 <= v < 10.
Proof.
  unfold is_digit. destruct (digit_val d) as [v |] eqn:E; [| discriminate].
  intros _. exists v. split; [reflexivity | exact (digit_val_range d v E)].
Qed.

Lemma py_int_digit_lead (d : ascii) (s : string) :
  is_digit d = true -> py_int (String d s) = scan_digits 0 PStart (String d s).
Proof.
  destruct d as [[] [] [] [] [] [] [] []]; intros H;
    solve [discriminate H | reflexivity].
Qed.

Lemma scan_digits_digits (s : string) :
  digits s = true ->
  forall acc p, s <> EmptyString \/ p = PDigit ->
  scan_digits acc p s = Some (digits_value acc s).
Proof.
  unfold digits. induction s as [| d s IH]; cbn; intros Hs acc p Hp.
  - destruct Hp as [Hp | ->]; [now contradiction Hp | reflexivity].
  - apply andb_prop in Hs as [Hd Hs].
    destruct (is_digit_val d Hd) as (v & -> & _).
    apply (IH Hs). now right.
Qed.

Lemma digits_value_ge (s : string) (acc : Z) :
  0 <= acc -> 0 <= digits_value acc s.
Proof.
  revert acc. induction s as [| d s IH]; cbn [digits_value]; intros acc Ha;
    [exact Ha |].
  destruct (digit_val d) as [v |] eqn:E; [| exact Ha].
  apply IH. pose proof (digit_val_range d v E). lia.
Qed.

(** [int] of a non-empty string of digits is the number it denotes. *)
Lemma py_int_digits (s : string) :
  digits s = true -> s <> EmptyString ->
  py_int s = Some (digits_value 0 s) /\ 0 <= digits_value 0 s.
Proof.
  intros Hs Hne. split; [| now apply digits_value_ge].
  destruct s as [| d s]; [now contradiction Hne |].
  pose proof Hs as Hs'. unfold digits in Hs'. cbn in Hs'.
  apply andb_prop in Hs' as [Hd _].
  rewrite (py_int_digit_lead d s Hd).
  apply scan_digits_digits; [exact Hs | now left].
Qed.

(** *** Rendering in decimal *)

Lemma digits_cons (c : ascii) (s : string) :
  digits (String c s) = is_digit c && digits s.
Proof. reflexivity. Qed.

Lemma is_digit_digit_char (d : Z) :
  0 <= d < 10 -> is_digit (digit_char d) = true.
Proof. intros Hd. unfold is_digit. now rewrite (digit_char_val d Hd). Qed.

Lemma digits_value_digit_char (acc d : Z) (s : string) :
  0 <= d < 10 ->
  digits_value acc (String (digit_char d) s) = digits_value (10 * acc + d) s.
Proof.
  intros Hd. cbn [digits_value]. now rewrite (digit_char_val d Hd).
Qed.

Lemma digits_fuel_digits (f : nat) (n : Z) (acc : string) :
  0 <= n -> digits acc = true -> digits (digits_fuel f n acc) = true.
Proof.
  revert n acc. induction f as [| f IH]; cbn [digits_fuel]; intros n acc Hn Hacc;
    [exact Hacc |].
  destruct (Z.ltb_spec n 10) as [Hlt | Hge].
  - rewrite digits_cons, is_digit_digit_char, Hacc by lia. reflexivity.
  - apply IH; [apply Z.div_pos; lia |].
    rewrite digits_cons, is_digit_digit_char, Hacc
      by (apply Z.mod_pos_bound; lia).
    reflexivity.
Qed.

Lemma digits_fuel_not_empty (f : nat) (n : Z) (acc : string) :
  digits_fuel (S f) n acc <> EmptyString.
Proof.
  revert n acc. induction f as [| f IH]; intros n acc; cbn [digits_fuel].
  - destruct (n <? 10); discriminate.
  - destruct (n <? 10); [discriminate |]. apply (IH (n / 10)).
Qed.

Lemma digits_fuel_value (f : nat) :
  forall (n : Z) (rest : string),
  0 <= n < 2 ^ Z.of_nat (S f) ->
  digits_value 0 (digits_fuel (S f) n rest) = digits_value n rest.
Proof.
  induction f as [| f IH]; intros n rest Hn.
  - cbn [digits_fuel]. change (2 ^ Z.of_nat 1) with 2 in Hn.
    destruct (Z.ltb_spec n 10); [| lia].
    rewrite digits_value_digit_char by lia. f_equal.
  - remember (S f) as g eqn:Hg. cbn [digits_fuel].
    destruct (Z.ltb_spec n 10) as [Hlt | Hge].
    + rewrite digits_value_digit_char by lia. f_equal.
    + subst g. rewrite IH.
      * rewrite digits_value_digit_char by (apply Z.mod_pos_bound; lia).
        f_equal. symmetry. apply Z.div_mod. lia.
      * rewrite Nat2Z.inj_succ, Z.pow_succ_r in Hn by lia.
        split; [apply Z.div_pos; lia |].
        apply Z.div_lt_upper_bound; lia.
Qed.

Lemma str_nat_value (n : Z) :
  0 <= n -> digits_value 0 (str_nat n) = n.
Proof.
  intros Hn. unfold str_nat. rewrite digits_fuel_value; [reflexivity |].
  rewrite Nat2Z.inj_succ, Z2Nat.id by apply Z.log2_nonneg.
  destruct (Z.eq_dec n 0) as [-> | Hne]; [cbn; lia |].
  pose proof (Z.log2_spec n ltac:(lia)). lia.
Qed.

Lemma format_02d_digits (n : Z) :
  0 <= n ->
  digits (format_02d n) = true
  /\ format_02d n <> EmptyString
  /\ digits_value 0 (format_02d n) = n.
Proof.
  intros Hn. unfold format_02d.
  destruct (Z.ltb_spec n 0); [lia |].
  assert (Hd : digits (str_nat n) = true)
    by (apply digits_fuel_digits; [exact Hn | reflexivity]).
  destruct (Z.ltb_spec n 10).
  - repeat split; [exact Hd | discriminate |].
    change (String "0" (str_nat n)) with (String (digit_char 0) (str_nat n)).
    rewrite digits_value_digit_char by lia. now apply str_nat_value.
  - repeat split; [exact Hd | apply digits_fuel_not_empty |].
    now apply str_nat_value.
Qed.

End PyStrFacts.

(** ** Parsing *)

Section Parsing.
Import PyStr PyStrFacts.

Lemma render_leading (t : ts_type) (h m s : Z) :
  render t h m s = (leading t ++ render Bar h m s)%string.
Proof. destruct t; reflexivity. Qed.

Lemma type_of_type_char (t : ts_type) : type_of_char (type_char t) = t.
Proof. destruct t; reflexivity. Qed.

Lemma parse_three_fields (s f0 f1 f2 : string) (more : list string) :
  s <> EmptyString ->
  split ":" (body_of s) = f0 :: f1 :: f2 :: more ->
  parse s =
  match py_int f0, py_int f1, py_int f2 with
  | Some h, Some m, Some x => Ok (mkVT (body_of s) (tag_of s) h m x positive)
  | _, _, _ => Err InvalidFormat
  end.
Proof.
  intros Hne Hsplit. destruct s as [| c r]; [now contradiction Hne |].
  unfold parse, post_init, parse_string. cbn [body_of tag_of] in *.
  rewrite Hsplit. unfold int_field. cbn [nth_error rbind].
  destruct (py_int f0); cbn [rbind]; [| reflexivity].
  destruct (py_int f1); cbn [rbind]; [| reflexivity].
  destruct (py_int f2); reflexivity.
Qed.

Lemma digit_field_spec (f : string) :
  digit_field f = true ->
  digits f = true /\ f <> EmptyString
  /\ py_int f = Some (digits_value 0 f) /\ 0 <= digits_value 0 f.
Proof.
  intros Hf. assert (Hd : digits f = true /\ f <> EmptyString).
  { destruct f; [discriminate | split; [exact Hf | discriminate]]. }
  destruct Hd as [Hd Hne]. pose proof (py_int_digits f Hd Hne). tauto.
Qed.

Lemma digits_no_char (c : ascii) (f : string) :
  is_digit c = false -> digits f = true -> no_char c f = true.
Proof.
  intros Hc. apply forall_chars_impl. intros d Hd.
  destruct (Ascii.eqb_spec d c) as [-> | _]; [congruence | reflexivity].
Qed.

Lemma no_char_hms (c : ascii) (a b x : string) :
  is_digit c = false -> (":" =? c)%char = false ->
  digits a = true -> digits b = true -> digits x = true ->
  no_char c (hms a b x) = true.
Proof.
  intros Hc Hcolon Ha Hb Hx. unfold hms, no_char.
  rewrite forall_chars_app. cbn [forall_chars]. rewrite forall_chars_app.
  cbn [forall_chars]. rewrite Hcolon. cbn [negb andb].
  fold (no_char c a) (no_char c b) (no_char c x).
  now rewrite !digits_no_char.
Qed.

Lemma split_hms (a b x : string) :
  digits a = true -> digits b = true -> digits x = true ->
  split ":" (hms a b x) = [a; b; x].
Proof.
  intros Ha Hb Hx. unfold hms.
  rewrite split_app_sep by now apply digits_no_char.
  rewrite split_app_sep by now apply digits_no_char.
  rewrite split_absent by now apply digits_no_char.
  reflexivity.
Qed.

Lemma body_of_leading_hms (t : ts_type) (a b x : string) :
  digit_field a = true -> digits b = true -> digits x = true ->
  (leading t ++ hms a b x)%string <> EmptyString
  /\ body_of (leading t ++ hms a b x) = hms a b x
  /\ tag_of (leading t ++ hms a b x) = t.
Proof.
  intros Ha Hb Hx.
  destruct (digit_field_spec a Ha) as (Hda & Hne & _).
  assert (Hno : no_char (type_char t) (hms a b x) = true)
    by (apply no_char_hms; try assumption; now destruct t).
  destruct t; cbn [leading append].
  - split; [discriminate |]. cbn [body_of tag_of]. split; [| reflexivity].
    change (type_char (type_of_char "+")) with (type_char Plus).
    rewrite remove_char_head. now apply remove_char_absent.
  - split; [discriminate |]. cbn [body_of tag_of]. split; [| reflexivity].
    change (type_char (type_of_char "-")) with (type_char Minus).
    rewrite remove_char_head. now apply remove_char_absent.
  - destruct a as [| d a]; [now contradiction Hne |].
    rewrite digits_cons in Hda. apply andb_prop in Hda as [Hd _].
    destruct (digit_shape d Hd) as (_ & Hp & Hm & _).
    assert (Ht : type_of_char d = Bar)
      by (unfold type_of_char; now rewrite Hp, Hm).
    unfold hms in *. cbn [append body_of tag_of] in *. rewrite Ht.
    split; [discriminate |]. split; [| reflexivity].
    now apply remove_char_absent.
Qed.

(** A tag and three fields of digits parse to what they denote. *)
Lemma parse_leading_hms (t : ts_type) (a b x : string) :
  digit_field a = true -> digit_field b = true -> digit_field x = true ->
  parse (leading t ++ hms a b x)
  = Ok (mkVT (hms a b x) t (digits_value 0 a) (digits_value 0 b)
          (digits_value 0 x) positive).
Proof.
  intros Ha Hb Hx.
  destruct (digit_field_spec a Ha) as (Hda & _ & Hia & _).
  destruct (digit_field_spec b Hb) as (Hdb & _ & Hib & _).
  destruct (digit_field_spec x Hx) as (Hdx & _ & Hix & _).
  destruct (body_of_leading_hms t a b x Ha Hdb Hdx) as (Hne & Hbody & Htag).
  rewrite (parse_three_fields _ a b x [] Hne)
    by (rewrite Hbody; now apply split_hms).
  now rewrite Hia, Hib, Hix, Hbody, Htag.
Qed.

Lemma parse_ok_shape (s : string) (v : VideoTimestamp) :
  parse s = Ok v ->
  timestamp v = body_of s /\ type v = tag_of s /\ orientation v = positive.
Proof.
  unfold parse, post_init, parse_string. destruct s as [| c r]; [discriminate |].
  cbn [body_of tag_of].
  destruct (int_field _ 0); cbn [rbind]; [| discriminate].
  destruct (int_field _ 1); cbn [rbind]; [| discriminate].
  destruct (int_field _ 2); cbn [rbind]; [| discriminate].
  intros [= <-]. cbn. repeat split.
Qed.

(** C4, as amended: when the body has at least three fields, parsing
    fails with [InvalidFormat] exactly when one of the first three is not
    an integer literal, and otherwise succeeds; the fields after the
    third are not looked at. *)
Theorem parse_at_least_three_fields (s f0 f1 f2 : string) (more : list string) :
  s <> EmptyString ->
  split ":" (body_of s) = f0 :: f1 :: f2 :: more ->
  (parse s = Err InvalidFormat
   <-> py_int f0 = None \/ py_int f1 = None \/ py_int f2 = None)
  /\ (forall h m x,
        py_int f0 = Some h -> py_int f1 = Some m -> py_int f2 = Some x ->
        parse s = Ok (mkVT (body_of s) (tag_of s) h m x positive)).
Proof.
  intros Hne Hsplit. rewrite (parse_three_fields s f0 f1 f2 more Hne Hsplit).
  destruct (py_int f0) as [h |], (py_int f1) as [m |], (py_int f2) as [x |];
    (split; [split; [intros; try discriminate; auto | intros [|[|]]; try discriminate; reflexivity]
            | intros h' m' x'; intros; try discriminate; congruence]).
Qed.

Lemma parse_at_least_three_fields_witness :
  (parse "1:2:3:4" = Err InvalidFormat
   <-> py_int "1" = None \/ py_int "2" = None \/ py_int "3" = None)
  /\ (forall h m x,
        py_int "1" = Some h -> py_int "2" = Some m -> py_int "3" = Some x ->
        parse "1:2:3:4"
        = Ok (mkVT (body_of "1:2:3:4") (tag_of "1:2:3:4") h m x positive)).
Proof.
  apply (parse_at_least_three_fields "1:2:3:4" "1" "2" "3" ["4"]).
  - discriminate.
  - reflexivity.
Defined.

(** C4, as stated, fails: a body of four fields is parsed, its fourth
    field ignored, even when that field is not a number. *)
Lemma parse_four_fields_counterexample :
  List.length (split ":" (body_of "1:2:3:4")) = 4%nat
  /\ parse "1:2:3:4" = Ok (mkVT "1:2:3:4" Bar 1 2 3 positive)
  /\ py_int "x" = None
  /\ parse "1:2:3:x" = Ok (mkVT "1:2:3:x" Bar 1 2 3 positive).
Proof. repeat split. Qed.

(** A field that is not a number is reported as [InvalidFormat] when it
    is reached, also when fewer than three fields are present. *)
Example parse_bad_field_reached :
  parse "a" = Err InvalidFormat /\ parse "1:b" = Err InvalidFormat.
Proof. split; reflexivity. Qed.

(** What the constructor renders from explicit fields. *)
Lemma post_init_fields (ts : option string) (t : ts_type) (h m x : Z)
    (o : orientation_t) :
  post_init ts (Some t) (Some h) (Some m) (Some x) o
  = Ok (mkVT (render t h m x) t h m x o).
Proof. reflexivity. Qed.

(** C10: a leading tag character is removed wherever it occurs, so the
    result only depends on the rest of the input with that character
    removed; "+01:+2:03" parses to hour 1, minute 2, second 3. *)
Theorem parse_removes_every_tag_char (t : ts_type) (r : string) :
  parse (String (type_char t) r)
  = parse (String (type_char t) (remove_char (type_char t) r))
  /\ body_of (String (type_char t) r) = remove_char (type_char t) r
  /\ parse "+01:+2:03" = Ok (mkVT "01:2:03" Plus 1 2 3 positive).
Proof.
  assert (Hb : forall q, body_of (String (type_char t) q)
                         = remove_char (type_char t) q).
  { intros q. cbn [body_of]. rewrite type_of_type_char.
    apply remove_char_head. }
  split; [| split; [apply Hb | reflexivity]].
  unfold parse, post_init, parse_string. rewrite type_of_type_char.
  rewrite !remove_char_head.
  now rewrite (remove_char_absent _ _ (no_char_remove (type_char t) r)).
Qed.

(** *** Round trip *)

Lemma render_bar_hms (h m x : Z) :
  render Bar h m x = hms (format_02d h) (format_02d m) (format_02d x).
Proof. reflexivity. Qed.

Lemma format_02d_field (n : Z) :
  0 <= n ->
  digit_field (format_02d n) = true /\ digits_value 0 (format_02d n) = n.
Proof.
  intros Hn. destruct (format_02d_digits n Hn) as (Hd & Hne & Hv).
  split; [| exact Hv]. destruct (format_02d n); [now contradiction Hne | exact Hd].
Qed.

(** Parsing the rendering of non-negative fields gives the fields back. *)
Lemma parse_render (t : ts_type) (h m x : Z) :
  0 <= h -> 0 <= m -> 0 <= x ->
  parse (render t h m x) = Ok (mkVT (render Bar h m x) t h m x positive).
Proof.
  intros Hh Hm Hx.
  destruct (format_02d_field h Hh) as [Fh Vh].
  destruct (format_02d_field m Hm) as [Fm Vm].
  destruct (format_02d_field x Hx) as [Fx Vx].
  rewrite render_leading, render_bar_hms.
  rewrite (parse_leading_hms t _ _ _ Fh Fm Fx). now rewrite Vh, Vm, Vx.
Qed.

(** C9, as amended: after parsing, the string form is the input with
    every occurrence of its tag character removed, so that character
    does not occur in it; it is not rendered again.  When the input is
    itself the zero-padded rendering of non-negative fields, the stored
    string is that rendering without its tag character. *)
Theorem parsed_timestamp_is_stripped_input (s : string) (v : VideoTimestamp) :
  parse s = Ok v ->
  timestamp v = remove_char (type_char (type v)) s
  /\ type v = tag_of s
  /\ no_char (type_char (type v)) (timestamp v) = true
  /\ (forall t h m x,
        0 <= h -> 0 <= m -> 0 <= x -> s = render t h m x ->
        timestamp v = render Bar h m x
        /\ type v = t /\ hour v = h /\ minute v = m /\ second v = x).
Proof.
  intros Hp. destruct (parse_ok_shape s v Hp) as (Hts & Hty & _).
  assert (Hb : body_of s = remove_char (type_char (type v)) s).
  { rewrite Hty. destruct s; reflexivity. }
  split; [now rewrite Hts |]. split; [exact Hty |].
  split; [rewrite Hts, Hb; apply no_char_remove |].
  intros t h m x Hh Hm Hx ->.
  rewrite (parse_render t h m x Hh Hm Hx) in Hp. injection Hp as <-.
  repeat split.
Qed.

Lemma parsed_timestamp_is_stripped_input_witness :
  timestamp (mkVT "-1:02:03" Plus (-1) 2 3 positive)
  = remove_char (type_char (type (mkVT "-1:02:03" Plus (-1) 2 3 positive)))
      "+-1:02:03"
  /\ type (mkVT "-1:02:03" Plus (-1) 2 3 positive) = tag_of "+-1:02:03"
  /\ no_char (type_char (type (mkVT "-1:02:03" Plus (-1) 2 3 positive)))
       (timestamp (mkVT "-1:02:03" Plus (-1) 2 3 positive)) = true
  /\ (forall t h m x,
        0 <= h -> 0 <= m -> 0 <= x -> "+-1:02:03" = render t h m x ->
        timestamp (mkVT "-1:02:03" Plus (-1) 2 3 positive) = render Bar h m x
        /\ type (mkVT "-1:02:03" Plus (-1) 2 3 positive) = t
        /\ hour (mkVT "-1:02:03" Plus (-1) 2 3 positive) = h
        /\ minute (mkVT "-1:02:03" Plus (-1) 2 3 positive) = m
        /\ second (mkVT "-1:02:03" Plus (-1) 2 3 positive) = x).
Proof.
  apply (parsed_timestamp_is_stripped_input "+-1:02:03"
           (mkVT "-1:02:03" Plus (-1) 2 3 positive)).
  reflexivity.
Defined.

(** C9, as stated, fails: parsing "1:2:3" leaves the string "1:2:3",
    while the zero-padded rendering of its fields is "01:02:03". *)
Lemma parse_not_rendered_counterexample :
  parse "1:2:3" = Ok (mkVT "1:2:3" Bar 1 2 3 positive)
  /\ render Bar 1 2 3 = "01:02:03"
  /\ timestamp (mkVT "1:2:3" Bar 1 2 3 positive) <> render Bar 1 2 3.
Proof. repeat split. discriminate. Qed.




(** The round trip needs non-negative fields: a negative hour is rendered
    with a "-" that parsing then takes for the tag. *)
Example parse_render_negative_field :
  parse "+-1:02:03" = Ok (mkVT "-1:02:03" Plus (-1) 2 3 positive)
  /\ parse (render Plus (-1) 2 3) = Ok (mkVT "-1:02:03" Plus (-1) 2 3 positive)
  /\ parse (render Bar (-1) 2 3) = Ok (mkVT "1:02:03" Minus 1 2 3 positive).
Proof. repeat split. Qed.

End Parsing.

(** ** True division *)

Lemma round_half_even_nonneg (n d : Z) :
  0 <= n -> 0 < d -> 0 <= round_half_even n d.
Proof.
  intros Hn Hd. unfold round_half_even.
  pose proof (Z.div_pos n d Hn Hd).
  destruct (2 * (n mod d) ?= d); [destruct (Z.even (n / d)) | |]; lia.
Qed.

Lemma py_int_truediv_nonneg (a b v : Z) :
  0 <= a -> 0 < b -> py_int_truediv a b = Ok v -> 0 <= v.
Proof.
  intros Ha Hb. unfold py_int_truediv, truediv_pos.
  destruct (Z.eqb_spec b 0); [lia |].
  destruct (Z.eqb_spec a 0); [intros [= <-]; lia |].
  destruct (_ || _); cbn [rbind]; [discriminate |].
  set (e := quot_exponent (Z.abs a) (Z.abs b)).
  set (m := round_half_even _ _).
  assert (Hm : 0 <= m).
  { apply round_half_even_nonneg.
    - apply Z.mul_nonneg_nonneg; [lia | apply Z.pow_nonneg; lia].
    - apply Z.mul_pos_pos; [lia | apply Z.pow_pos_nonneg; lia]. }
  rewrite (Z.sgn_pos a), (Z.sgn_pos b) by lia.
  assert (Ht : 0 <= (if 0 <=? e then m * 2 ^ e else m / 2 ^ (- e))).
  { destruct (Z.leb_spec 0 e).
    - apply Z.mul_nonneg_nonneg; [exact Hm | apply Z.pow_nonneg; lia].
    - apply Z.div_pos; [exact Hm | apply Z.pow_pos_nonneg; lia]. }
  rewrite !Z.mul_1_l. intros [= <-]. exact Ht.
Qed.

(** ** The planner *)

Lemma ffmpeg_cmd_ok (i o s t : string) (v : Z) (c : segment) :
  ffmpeg_cmd i o s t v = Ok c -> c = mkSeg i o s t v /\ v <> 0.
Proof.
  unfold ffmpeg_cmd. destruct (Z.eqb_spec v 0); [discriminate |].
  destruct (_ <=? _); [discriminate |]. intros [= <-]. split; [reflexivity | assumption].
Qed.

Lemma ffmpeg_cmd_one (i o s t : string) :
  ffmpeg_cmd i o s t 1 = Ok (mkSeg i o s t 1).
Proof. reflexivity. Qed.

Lemma ffmpeg_cmd_zero (i o s t : string) :
  ffmpeg_cmd i o s t 0 = Err ZeroDivisionError.
Proof. reflexivity. Qed.

Section PlannerFacts.

Variable raw : nat -> Z.
Variable run_tool : segment -> list string -> bool * list string.
Variables (input_file stem suffix : string) (in_out_folder : string -> string).

Local Abbreviation vel_seg_ok := (vel_seg_ok raw).
Local Abbreviation event_ok := (event_ok raw).
Local Abbreviation inv := (inv raw).
Local Abbreviation triple := (triple raw).
Local Abbreviation run_unless_present := (run_unless_present run_tool).

(** Velocity selection with the default durations only advances the
    generator, and a velocity it returns is not negative. *)
Lemma get_vel_default (a b : VideoTimestamp) (w : world) :
  exists r n,
    get_vel raw a b default_min_speed_duration default_max_speed_duration w
    = (r, mkWorld (n + draws w) (files w) (trace w))
    /\ (forall v, r = Ok v -> 0 <= v).
Proof.
  destruct (Z.le_gt_cases (total_seconds (minus b a)) 10) as [Hs | Hl].
  - exists (Ok 1), 0%nat. rewrite (get_vel_short raw a b _ w Hs).
    split; [now destruct w |]. intros v [= <-]. lia.
  - destruct (get_vel_long raw a b w ltac:(lia)) as (d & Hd & ->).
    eexists; exists 3%nat. split; [reflexivity |].
    intros v Hv.
    apply (py_int_truediv_nonneg (total_seconds (minus b a)) d v);
      [| lia | exact Hv].
    rewrite total_seconds_minus. apply Z.abs_nonneg.
Qed.

(** *** What holds of every accelerated segment *)

Lemma triple_ret {A} (a : A) : triple (ret a) (fun x => x = a).
Proof. intros w Hw. split; [exact Hw |]. now intros x [= <-]. Qed.

Lemma triple_lift {A} (r : result A) : triple (lift r) (fun x => r = Ok x).
Proof. intros w Hw. split; [exact Hw |]. now intros x <-. Qed.

Lemma triple_bind {A B} (c : M A) (k : A -> M B) (Q : A -> Prop)
    (R : B -> Prop) :
  triple c Q -> (forall a, Q a -> triple (k a) R) -> triple (bind c k) R.
Proof.
  intros Hc Hk w Hw. unfold bind. destruct (Hc w Hw) as [Hi Hq].
  destruct (c w) as [[a | e] w']; cbn [fst snd] in *.
  - apply (Hk a (Hq a eq_refl) w' Hi).
  - split; [exact Hi | discriminate].
Qed.

Lemma triple_weaken {A} (c : M A) (Q R : A -> Prop) :
  triple c Q -> (forall a, Q a -> R a) -> triple c R.
Proof.
  intros Hc HQR w Hw. destruct (Hc w Hw) as [Hi Hq].
  split; [exact Hi |]. intros a Ha. apply HQR, Hq, Ha.
Qed.

Lemma triple_log (e : event) : event_ok e -> triple (log e) (fun _ => True).
Proof.
  intros He w Hw. split; [| trivial]. unfold inv, log. cbn.
  apply Forall_app. split; [exact Hw | now constructor].
Qed.

Lemma triple_path_exists (path : string) :
  triple (path_exists path) (fun _ => True).
Proof. intros w Hw. split; [exact Hw | trivial]. Qed.

Lemma triple_check_output (k : seg_kind) (c : segment) :
  event_ok (Ran k c) -> triple (check_output run_tool k c) (fun _ => True).
Proof.
  intros He w Hw. split; [| trivial]. unfold check_output.
  destruct (run_tool c (files w)) as [ok files'].
  assert (Hi : inv (mkWorld (draws w) files' (trace w ++ [Ran k c]))).
  { unfold inv. cbn. apply Forall_app. split; [exact Hw | now constructor]. }
  now destruct ok.
Qed.

Lemma triple_get_vel (a b : VideoTimestamp) :
  triple
    (get_vel raw a b default_min_speed_duration default_max_speed_duration)
    (fun v => 0 <= v /\ exists w0 w1,
       get_vel raw a b default_min_speed_duration default_max_speed_duration w0
       = (Ok v, w1)).
Proof.
  intros w Hw. destruct (get_vel_default a b w) as (r & n & E & Hr).
  rewrite E. cbn [fst snd]. split; [exact Hw |].
  intros v ->. split; [now apply Hr |]. exists w. eexists. exact E.
Qed.

Lemma triple_ret_any {A} (a : A) : triple (ret a) (fun _ => True).
Proof. apply (triple_weaken _ _ _ (triple_ret a)). trivial. Qed.

Lemma triple_run_unless_present (present : bool) (k : seg_kind) (c : segment) :
  event_ok (Ran k c) ->
  triple (if negb present then check_output run_tool k c else ret tt)
    (fun _ => True).
Proof.
  intros He. destruct present; cbn [negb];
    [apply triple_ret_any | now apply triple_check_output].
Qed.

Ltac triple_step :=
  lazymatch goal with
  | |- triple (bind (lift _) _) _ =>
      eapply triple_bind; [apply triple_lift | cbv beta]
  | |- triple (bind (get_vel _ _ _ _ _) _) _ =>
      eapply triple_bind; [apply triple_get_vel | cbv beta]
  | |- triple (bind (path_exists _) _) _ =>
      eapply triple_bind; [apply triple_path_exists | cbv beta]
  | |- triple (bind (log _) _) _ =>
      eapply triple_bind; [apply triple_log | cbv beta]
  end.

Lemma triple_pair_step (rest_time offset : VideoTimestamp) (i : nat)
    (t1 t2 : string) :
  triple
    (pair_step raw run_tool input_file stem suffix in_out_folder
       rest_time offset i t1 t2)
    (fun _ => True).
Proof.
  unfold pair_step. cbv zeta.
  triple_step. intros p1 _. triple_step. intros p2 _.
  triple_step. intros v (Hv & w0 & w1 & Hgv).
  set (vt1 := minus p1 offset) in *. set (vt2 := minus p2 offset) in *.
  destruct (total_seconds (minus vt2 vt1) <? 25) eqn:Hshort.
  - (* the pair is closer than 25 s: no accelerated segment *)
    apply Z.ltb_lt in Hshort.
    triple_step. intros c1 Hc1. rewrite ffmpeg_cmd_one in Hc1.
    injection Hc1 as <-.
    triple_step; [reflexivity | intros _ _].
    destruct (Z.gtb_spec (total_seconds (minus vt2 vt1)) 25) as [Hgt | _];
      [lia |].
    eapply triple_bind; [apply triple_ret_any | intros ? _].
    triple_step. intros present _.
    now apply triple_run_unless_present.
  - triple_step. intros c1 Hc1. rewrite ffmpeg_cmd_one in Hc1.
    injection Hc1 as <-.
    triple_step; [reflexivity | intros _ _].
    eapply triple_bind with (Q := fun _ => True).
    + destruct (total_seconds (minus vt2 vt1) >? 25);
        [| apply triple_ret_any].
      triple_step. intros c2 Hc2.
      destruct (ffmpeg_cmd_ok _ _ _ _ _ _ Hc2) as [Ec Hne]. subst c2.
      assert (Hok : vel_seg_ok
                      (mkSeg input_file
                         (out_file stem suffix in_out_folder i "2")
                         (timestamp (plus vt1 rest_time)) (timestamp vt2)
                         (Z.min v 70))).
      { split; [cbn [seg_velocity]; lia |].
        exists vt1, vt2, rest_time, w0, w1, v. now repeat split. }
      triple_step; [exact Hok | intros _ _].
      triple_step. intros present _.
      now apply triple_run_unless_present.
    + intros ? _. triple_step. intros present _.
      now apply triple_run_unless_present.
Qed.

Lemma triple_segments_loop (rest_time offset : VideoTimestamp)
    (timestamps : list string) :
  forall i,
  triple
    (segments_loop raw run_tool input_file stem suffix in_out_folder
       rest_time offset i timestamps)
    (fun _ => True).
Proof.
  induction timestamps as [| t1 later IH]; intros i; [apply triple_ret_any |].
  destruct later as [| t2 later]; [apply triple_ret_any |].
  cbn [segments_loop].
  eapply triple_bind; [apply triple_pair_step | intros ? _; apply IH].
Qed.

Lemma triple_process_video (timestamps : list string) (rest_time : string) :
  triple
    (process_video raw run_tool input_file stem suffix in_out_folder
       timestamps rest_time)
    (fun _ => True).
Proof.
  unfold process_video. triple_step. intros offset _.
  triple_step. intros rest _. apply triple_segments_loop.
Qed.

(** *** One pair of timestamps, case by case *)

Section OnePair.

Variables (rest_time offset p1 p2 : VideoTimestamp) (i : nat) (t1 t2 : string).
Variables (v : Z) (w w1 : world).

Let vt1 := minus p1 offset.
Let vt2 := minus p2 offset.
Let gap := total_seconds (minus vt2 vt1).

Hypothesis parse_t1 : parse t1 = Ok p1.
Hypothesis parse_t2 : parse t2 = Ok p2.
Hypothesis vel_chosen :
  get_vel raw (plus vt1 rest_time) vt2
    default_min_speed_duration default_max_speed_duration w = (Ok v, w1).

Let step :=
  pair_step raw run_tool input_file stem suffix in_out_folder
    rest_time offset i t1 t2.

Let rest_seg (to : string) : segment :=
  mkSeg input_file (out_file stem suffix in_out_folder i "1")
    (timestamp vt1) to 1.

Let vel_seg : segment :=
  mkSeg input_file (out_file stem suffix in_out_folder i "2")
    (timestamp (plus vt1 rest_time)) (timestamp vt2) (Z.min v 70).

(** Closer than 25 s: one rest segment from [vt1] to [vt2], nothing else. *)
Lemma pair_step_short :
  gap < 25 ->
  step w
  = run_unless_present RestSeg (rest_seg (timestamp vt2))
      (built (Built RestSeg (rest_seg (timestamp vt2))) w1).
Proof.
  intros Hgap. unfold step, pair_step, bind, lift.
  rewrite parse_t1, parse_t2. cbv zeta. fold vt1 vt2. rewrite vel_chosen.
  fold gap. destruct (Z.ltb_spec gap 25); [| lia].
  destruct (Z.gtb_spec gap 25); [lia |].
  rewrite ffmpeg_cmd_one. reflexivity.
Qed.

(** Exactly 25 s apart: the rest segment ends at [vt1 + rest_time], and
    there is no accelerated segment. *)
Lemma pair_step_exact :
  gap = 25 ->
  step w
  = run_unless_present RestSeg (rest_seg (timestamp (plus vt1 rest_time)))
      (built (Built RestSeg (rest_seg (timestamp (plus vt1 rest_time)))) w1).
Proof.
  intros Hgap. unfold step, pair_step, bind, lift.
  rewrite parse_t1, parse_t2. cbv zeta. fold vt1 vt2. rewrite vel_chosen.
  fold gap. destruct (Z.ltb_spec gap 25); [lia |].
  destruct (Z.gtb_spec gap 25); [lia |].
  rewrite ffmpeg_cmd_one. reflexivity.
Qed.

(** More than 25 s apart and a velocity that is not zero: the rest
    segment ends at [vt1 + rest_time]; the accelerated segment from there
    to [vt2] is run first, then the rest segment. *)
Lemma pair_step_long :
  25 < gap -> v <> 0 ->
  step w
  = (_ <- run_unless_present VelSeg vel_seg ;;
     run_unless_present RestSeg (rest_seg (timestamp (plus vt1 rest_time))))%M
      (built (Built VelSeg vel_seg)
         (built (Built RestSeg (rest_seg (timestamp (plus vt1 rest_time))))
            w1)).
Proof.
  intros Hgap Hv. unfold step, pair_step, bind, lift.
  rewrite parse_t1, parse_t2. cbv zeta. fold vt1 vt2. rewrite vel_chosen.
  fold gap. destruct (Z.ltb_spec gap 25); [lia |].
  destruct (Z.gtb_spec gap 25); [| lia].
  rewrite ffmpeg_cmd_one.
  destruct (get_vel_default (plus vt1 rest_time) vt2 w) as (r & n & E & Hr).
  rewrite vel_chosen in E. injection E as <- _.
  pose proof (Hr v eq_refl) as Hv0.
  unfold ffmpeg_cmd.
  destruct (Z.eqb_spec (Z.min v 70) 0); [lia |].
  destruct (Z.leb_spec (2 ^ 1024 - 2 ^ 970) (Z.abs (Z.min v 70))); [lia |].
  reflexivity.
Qed.

(** More than 25 s apart and velocity zero: building the accelerated
    command divides by zero, after the rest command was built and before
    anything was run. *)
Lemma pair_step_zero_velocity :
  25 < gap -> v = 0 ->
  step w
  = (Err ZeroDivisionError,
     built (Built RestSeg (rest_seg (timestamp (plus vt1 rest_time)))) w1).
Proof.
  intros Hgap Hv. unfold step, pair_step, bind, lift.
  rewrite parse_t1, parse_t2. cbv zeta. fold vt1 vt2. rewrite vel_chosen.
  fold gap. destruct (Z.ltb_spec gap 25); [lia |].
  destruct (Z.gtb_spec gap 25); [| lia].
  rewrite ffmpeg_cmd_one. subst v. reflexivity.
Qed.

End OnePair.

End PlannerFacts.

(** ** Whole runs of the planner *)

Lemma on_vel_impl (P Q : segment -> Prop) (e : event) :
  (forall c, P c -> Q c) -> on_vel P e -> on_vel Q e.
Proof. intros HPQ. destruct e as [[] c | [] c]; cbn; auto. Qed.

Section RunOfPairs.

Variable raw : nat -> Z.
Variable run_tool : segment -> list string -> bool * list string.
Variables (input_file stem suffix : string) (in_out_folder : string -> string).

Local Abbreviation pair_seg := (pair_vel_seg raw input_file stem suffix in_out_folder).
Local Abbreviation step :=
  (pair_step raw run_tool input_file stem suffix in_out_folder).
Local Abbreviation loop :=
  (segments_loop raw run_tool input_file stem suffix in_out_folder).

(** What running a command unless its output exists adds to the trace. *)
Lemma run_unless_present_trace (k : seg_kind) (c : segment) (w : world) :
  exists evs,
    trace (snd (run_unless_present run_tool k c w)) = (trace w ++ evs)%list
    /\ Forall (fun e => e = Ran k c) evs.
Proof.
  unfold run_unless_present, bind, path_exists.
  destruct (existsb _ _); cbn [negb].
  - exists []. cbn. now rewrite app_nil_r.
  - unfold check_output. destruct (run_tool c (files w)) as [ok files'].
    exists [Ran k c]. split; [now destruct ok | now repeat constructor].
Qed.

Lemma on_vel_rest_ran (P : segment -> Prop) (c : segment) (evs : list event) :
  seg_velocity c = 1 ->
  Forall (fun e => e = Ran RestSeg c) evs -> Forall (on_vel P) evs.
Proof.
  intros Hc. apply Forall_impl. now intros e ->.
Qed.

Lemma on_vel_vel_ran (P : segment -> Prop) (c : segment) (evs : list event) :
  P c -> Forall (fun e => e = Ran VelSeg c) evs -> Forall (on_vel P) evs.
Proof.
  intros Hc. apply Forall_impl. now intros e ->.
Qed.

(** One turn of the loop: the events it adds are those of its pair, with
    the velocity chosen in the world in which the turn starts. *)
Lemma pair_step_events (rest_time offset : VideoTimestamp) (i : nat)
    (t1 t2 : string) (w : world) :
  exists evs,
    trace (snd (step rest_time offset i t1 t2 w)) = (trace w ++ evs)%list
    /\ Forall (on_vel (pair_seg rest_time offset i t1 t2 w)) evs.
Proof.
  destruct (parse t1) as [p1 | e1] eqn:Hp1.
  2:{ exists []. unfold pair_step, bind, lift. rewrite Hp1. cbn.
      now rewrite app_nil_r. }
  destruct (parse t2) as [p2 | e2] eqn:Hp2.
  2:{ exists []. unfold pair_step, bind, lift. rewrite Hp1, Hp2. cbn.
      now rewrite app_nil_r. }
  set (vt1 := minus p1 offset). set (vt2 := minus p2 offset).
  destruct (get_vel_default raw (plus vt1 rest_time) vt2 w)
    as (r & n & Hgv & Hr).
  destruct r as [v | e].
  2:{ exists []. unfold pair_step, bind, lift. rewrite Hp1, Hp2. cbv zeta.
      fold vt1 vt2. rewrite Hgv. cbn. now rewrite app_nil_r. }
  specialize (Hr v eq_refl).
  set (w1 := mkWorld (n + draws w) (files w) (trace w)) in *.
  destruct (Z.lt_trichotomy (total_seconds (minus vt2 vt1)) 25)
    as [Hgap | [Hgap | Hgap]].
  - rewrite (pair_step_short raw run_tool input_file stem suffix in_out_folder
               rest_time offset p1 p2 i t1 t2 v w w1 Hp1 Hp2 Hgv Hgap).
    match goal with |- context [run_unless_present _ _ ?c ?w'] =>
      destruct (run_unless_present_trace RestSeg c w') as (evs & -> & Hevs);
      exists (Built RestSeg c :: evs)
    end.
    split; [cbn [built trace w1]; now rewrite <- app_assoc |].
    constructor; [reflexivity | now apply on_vel_rest_ran with (2 := Hevs)].
  - rewrite (pair_step_exact raw run_tool input_file stem suffix in_out_folder
               rest_time offset p1 p2 i t1 t2 v w w1 Hp1 Hp2 Hgv Hgap).
    match goal with |- context [run_unless_present _ _ ?c ?w'] =>
      destruct (run_unless_present_trace RestSeg c w') as (evs & -> & Hevs);
      exists (Built RestSeg c :: evs)
    end.
    split; [cbn [built trace w1]; now rewrite <- app_assoc |].
    constructor; [reflexivity | now apply on_vel_rest_ran with (2 := Hevs)].
  - destruct (Z.eq_dec v 0) as [Hv | Hv].
    + rewrite (pair_step_zero_velocity raw run_tool input_file stem suffix
                 in_out_folder rest_time offset p1 p2 i t1 t2 v w w1
                 Hp1 Hp2 Hgv Hgap Hv).
      eexists [_]. split; [reflexivity |]. now repeat constructor.
    + rewrite (pair_step_long raw run_tool input_file stem suffix
                 in_out_folder rest_time offset p1 p2 i t1 t2 v w w1
                 Hp1 Hp2 Hgv Hgap Hv).
      fold vt1 vt2.
      set (c1 := mkSeg input_file (out_file stem suffix in_out_folder i "1")
                   (timestamp vt1) (timestamp (plus vt1 rest_time)) 1).
      set (c2 := mkSeg input_file (out_file stem suffix in_out_folder i "2")
                   (timestamp (plus vt1 rest_time)) (timestamp vt2)
                   (Z.min v 70)).
      assert (Hc2 : pair_seg rest_time offset i t1 t2 w c2).
      { exists p1, p2, v, w1. repeat split; try assumption; lia. }
      set (w2 := built (Built VelSeg c2) (built (Built RestSeg c1) w1)).
      destruct (run_unless_present_trace VelSeg c2 w2) as (evs2 & E2 & Hevs2).
      unfold bind.
      destruct (run_unless_present run_tool VelSeg c2 w2) as [[u | e] w3].
      * cbn [snd] in E2.
        destruct (run_unless_present_trace RestSeg c1 w3) as (evs1 & -> & Hevs1).
        exists (Built RestSeg c1 :: Built VelSeg c2 :: evs2 ++ evs1)%list.
        split.
        { rewrite E2. cbn [w2 built trace w1]. rewrite <- !app_assoc.
          reflexivity. }
        constructor; [reflexivity |]. constructor; [exact Hc2 |].
        apply Forall_app. split.
        -- now apply on_vel_vel_ran with (2 := Hevs2).
        -- now apply on_vel_rest_ran with (2 := Hevs1).
      * cbn [snd] in E2 |- *.
        exists (Built RestSeg c1 :: Built VelSeg c2 :: evs2)%list.
        split.
        { rewrite E2. cbn [w2 built trace w1]. rewrite <- !app_assoc.
          reflexivity. }
        constructor; [reflexivity |]. constructor; [exact Hc2 |].
        now apply on_vel_vel_ran with (2 := Hevs2).
Qed.

Lemma segments_loop_cons (rest_time offset : VideoTimestamp) (i : nat)
    (t1 t2 : string) (later : list string) :
  loop rest_time offset i (t1 :: t2 :: later)
  = (_ <- step rest_time offset i t1 t2 ;;
     loop rest_time offset (S i) (t2 :: later))%M.
Proof. reflexivity. Qed.

(** [c] is the accelerated command of pair [k] of the list, counted from
    index [i], in a run of the loop that starts in [w]. *)
Let loop_seg (rest_time offset : VideoTimestamp) (i : nat)
    (timestamps : list string) (w : world) (c : segment) : Prop :=
  exists k t1 t2,
    nth_error timestamps k = Some t1 /\ nth_error timestamps (S k) = Some t2
    /\ pair_seg rest_time offset (i + k) t1 t2
         (snd (loop rest_time offset i (firstn (S k) timestamps) w)) c.

Lemma segments_loop_events (rest_time offset : VideoTimestamp)
    (timestamps : list string) :
  forall (i : nat) (w : world),
  exists evs,
    trace (snd (loop rest_time offset i timestamps w)) = (trace w ++ evs)%list
    /\ Forall (on_vel (loop_seg rest_time offset i timestamps w)) evs.
Proof.
  induction timestamps as [| t1 later IH]; intros i w.
  { exists []. cbn. now rewrite app_nil_r. }
  destruct later as [| t2 later].
  { exists []. cbn. now rewrite app_nil_r. }
  rewrite segments_loop_cons. unfold bind.
  destruct (pair_step_events rest_time offset i t1 t2 w) as (evs1 & E1 & H1).
  assert (H1' : Forall (on_vel (loop_seg rest_time offset i
                                  (t1 :: t2 :: later) w)) evs1).
  { apply (Forall_impl _ (P := on_vel (pair_seg rest_time offset i t1 t2 w)));
      [| exact H1].
    intros e. apply on_vel_impl. intros c Hc.
    exists 0%nat, t1, t2. rewrite Nat.add_0_r. cbn. auto. }
  destruct (step rest_time offset i t1 t2 w) as [[u | e] w'] eqn:Estep;
    cbn [snd] in E1; cbv beta iota.
  - destruct (IH (S i) w') as (evs2 & E2 & H2).
    exists (evs1 ++ evs2)%list. split.
    { rewrite E2, E1. now rewrite app_assoc. }
    apply Forall_app. split; [exact H1' |].
    apply (Forall_impl _ (P := on_vel (loop_seg rest_time offset (S i)
                                         (t2 :: later) w')));
      [| exact H2].
    intros e. apply on_vel_impl. intros c (k & a & b & Ha & Hb & Hc).
    exists (S k), a, b. split; [exact Ha |]. split; [exact Hb |].
    replace (i + S k)%nat with (S i + k)%nat by lia.
    replace (snd (loop rest_time offset i
                    (firstn (S (S k)) (t1 :: t2 :: later)) w))
      with (snd (loop rest_time offset (S i) (firstn (S k) (t2 :: later)) w'));
      [exact Hc |].
    cbn [firstn]. rewrite segments_loop_cons. unfold bind.
    now rewrite Estep.
  - exists evs1. split; [exact E1 | exact H1'].
Qed.

Lemma process_video_events (timestamps : list string) (rest_time : string)
    (existing : list string) :
  Forall
    (on_vel (run_vel_seg raw run_tool input_file stem suffix in_out_folder
               timestamps rest_time existing))
    (trace
       (snd
          (process_video raw run_tool input_file stem suffix in_out_folder
             timestamps rest_time (init_world existing)))).
Proof.
  unfold process_video at 1. unfold bind at 1. unfold lift at 1.
  change (parse "00:00:00") with (Ok (mkVT "00:00:00" Bar 0 0 0 positive)).
  cbv beta iota. set (offset := mkVT "00:00:00" Bar 0 0 0 positive).
  unfold bind at 1. unfold lift at 1.
  destruct (parse rest_time) as [rest | e] eqn:Hrest; [| constructor].
  destruct (segments_loop_events rest offset timestamps 0 (init_world existing))
    as (evs & -> & Hevs).
  cbn [init_world trace app].
  apply (Forall_impl _ (P := on_vel (loop_seg rest offset 0 timestamps
                                       (init_world existing))));
    [| exact Hevs].
  intros ev. apply on_vel_impl. intros c (k & a & b & Ha & Hb & Hc).
  exists k, a, b, offset, rest.
  split; [exact Ha |]. split; [exact Hb |]. split; [reflexivity |].
  split; [exact Hrest |].
  replace (snd (process_video raw run_tool input_file stem suffix in_out_folder
                  (firstn (S k) timestamps) rest_time (init_world existing)))
    with (snd (loop rest offset 0 (firstn (S k) timestamps)
                 (init_world existing)));
    [exact Hc |].
  unfold process_video, bind, lift. rewrite Hrest. reflexivity.
Qed.

End RunOfPairs.

(** C2: every accelerated segment that [process_video] builds or runs
    carries a velocity between 1 and 70, and it is the segment of one of
    the pairs of the run: for that pair it runs from [vt1 + rest_time] to
    [vt2] at the velocity [min(get_vel(vt1 + rest_time, vt2), 70)], with
    [get_vel] called in the world in which the turn of the loop for that
    pair starts (and every rest segment carries velocity 1). *)
Theorem accelerated_velocity_between_1_and_70
    (raw : nat -> Z) (run_tool : segment -> list string -> bool * list string)
    (input_file stem suffix : string) (in_out_folder : string -> string)
    (timestamps : list string) (rest_time : string) (existing : list string) :
  Forall
    (fun e =>
       event_ok raw e
       /\ on_vel
            (run_vel_seg raw run_tool input_file stem suffix in_out_folder
               timestamps rest_time existing) e)
    (trace
       (snd
          (process_video raw run_tool input_file stem suffix in_out_folder
             timestamps rest_time (init_world existing)))).
Proof.
  apply Forall_and.
  - apply (triple_process_video raw run_tool input_file stem suffix
             in_out_folder timestamps rest_time (init_world existing)).
    constructor.
  - apply process_video_events.
Qed.

(** The segment of a pair is determined: in the run from 0 s to 40 s
    with 5 s of rest and a drawn duration of 10 s, the only accelerated
    segment is 00:00:05..00:00:40 at velocity 3. *)
Example run_vel_seg_0_40 (c : segment) :
  run_vel_seg (fun _ => 0) tool_creates_output "in.mp4" "in" ".mp4"
    (fun name => ("out/" ++ name)%string) ["00:00:00"; "00:00:40"] "00:00:05"
    [] c ->
  c = mkSeg "in.mp4" "out/in_0_2.mp4" "00:00:05" "00:00:40" 3.
Proof.
  intros (k & t1 & t2 & offset & rest & Ht1 & Ht2 & Ho & Hr & Hc).
  destruct k as [| k]; [| destruct k; discriminate Ht2].
  cbn in Ht1, Ht2. injection Ht1 as <-. injection Ht2 as <-.
  injection Ho as <-. injection Hr as <-.
  destruct Hc as (p1 & p2 & v & w1 & Hp1 & Hp2 & Hv & -> & _).
  injection Hp1 as <-. injection Hp2 as <-.
  vm_compute in Hv. injection Hv as <- _. reflexivity.
Qed.

(** A run with an accelerated segment: 0 s to 40 s with 5 s of rest, the
    generator choosing a duration of 10 s, gives velocity 3. *)
Example process_video_0_40 :
  process_video (fun _ => 0) tool_creates_output "in.mp4" "in" ".mp4"
    (fun name => ("out/" ++ name)%string) ["00:00:00"; "00:00:40"] "00:00:05"
    (init_world [])
  = (Ok tt,
     mkWorld 3 ["out/in_0_1.mp4"; "out/in_0_2.mp4"]
       [Built RestSeg (mkSeg "in.mp4" "out/in_0_1.mp4" "00:00:00" "00:00:05" 1);
        Built VelSeg (mkSeg "in.mp4" "out/in_0_2.mp4" "00:00:05" "00:00:40" 3);
        Ran VelSeg (mkSeg "in.mp4" "out/in_0_2.mp4" "00:00:05" "00:00:40" 3);
        Ran RestSeg (mkSeg "in.mp4" "out/in_0_1.mp4" "00:00:00" "00:00:05" 1)]).
Proof. vm_compute. reflexivity. Qed.

(** A pair closer than 25 s, and a pair exactly 25 s apart. *)
Example process_video_short_and_exact :
  process_video (fun _ => 0) tool_creates_output "in.mp4" "in" ".mp4"
    (fun name => ("out/" ++ name)%string)
    ["00:00:00"; "00:00:10"; "00:00:35"] "00:00:05" (init_world [])
  = (Ok tt,
     mkWorld 3 ["out/in_1_1.mp4"; "out/in_0_1.mp4"]
       [Built RestSeg (mkSeg "in.mp4" "out/in_0_1.mp4" "00:00:00" "00:00:10" 1);
        Ran RestSeg (mkSeg "in.mp4" "out/in_0_1.mp4" "00:00:00" "00:00:10" 1);
        Built RestSeg (mkSeg "in.mp4" "out/in_1_1.mp4" "00:00:10" "00:00:15" 1);
        Ran RestSeg (mkSeg "in.mp4" "out/in_1_1.mp4" "00:00:10" "00:00:15" 1)]).
Proof. vm_compute. reflexivity. Qed.

(** An output file that is already there is not produced again. *)
Example process_video_existing_output :
  process_video (fun _ => 0) tool_creates_output "in.mp4" "in" ".mp4"
    (fun name => ("out/" ++ name)%string) ["00:00:00"; "00:00:40"] "00:00:05"
    (init_world ["out/in_0_2.mp4"])
  = (Ok tt,
     mkWorld 3 ["out/in_0_1.mp4"; "out/in_0_2.mp4"]
       [Built RestSeg (mkSeg "in.mp4" "out/in_0_1.mp4" "00:00:00" "00:00:05" 1);
        Built VelSeg (mkSeg "in.mp4" "out/in_0_2.mp4" "00:00:05" "00:00:40" 3);
        Ran RestSeg (mkSeg "in.mp4" "out/in_0_1.mp4" "00:00:00" "00:00:05" 1)]).
Proof. vm_compute. reflexivity. Qed.

(** [get_vel] can return 0: a difference of 21 s over a random duration
    of 30 s. *)
Example get_vel_21_over_30 :
  get_vel (fun _ => 20) (from_seconds 5) (from_seconds 26)
    default_min_speed_duration default_max_speed_duration (init_world [])
  = (Ok 0, mkWorld 3 [] []).
Proof. vm_compute. reflexivity. Qed.

(** C3 at a failing input: timestamps 26 s apart with 5 s of rest, the
    generator choosing a duration of 30 s.  The pair is more than 25 s
    apart, yet no accelerated segment is built or run and the rest
    segment is not run: the velocity is 0 and building the accelerated
    command divides by zero. *)
Theorem process_video_26s_gap_divides_by_zero
    (run_tool : segment -> list string -> bool * list string)
    (input_file stem suffix : string) (in_out_folder : string -> string)
    (existing : list string) :
  process_video (fun _ => 20) run_tool input_file stem suffix in_out_folder
    ["00:00:00"; "00:00:26"] "00:00:05" (init_world existing)
  = (Err ZeroDivisionError,
     mkWorld 3 existing
       [Built RestSeg
          (mkSeg input_file (out_file stem suffix in_out_folder 0 "1")
             "00:00:00" "00:00:05" 1)]).
Proof. reflexivity. Qed.

(** * Further properties of the timestamp value *)

Section TimestampFacts.
Import PyStr PyStrFacts.

Lemma hms_range (a : Z) :
  0 <= a ->
  0 <= a / 3600 /\ 0 <= a mod 3600 / 60 < 60 /\ 0 <= a mod 60 < 60.
Proof.
  intros Ha.
  pose proof (Z.mod_pos_bound a 3600 ltac:(lia)) as H1.
  pose proof (Z.mod_pos_bound a 60 ltac:(lia)) as H2.
  split; [apply Z.div_pos; lia |]. split; [| exact H2]. split.
  - apply Z.div_pos; lia.
  - apply Z.div_lt_upper_bound; lia.
Qed.

Lemma from_seconds_fields_range (n : Z) :
  0 <= hour (from_seconds n)
  /\ 0 <= minute (from_seconds n) < 60
  /\ 0 <= second (from_seconds n) < 60.
Proof.
  destruct (Z.lt_ge_cases n 0) as [Hn | Hn].
  - rewrite (from_seconds_neg n Hn). cbn [of_fields hour minute second].
    apply hms_range, Z.abs_nonneg.
  - rewrite (from_seconds_nonneg n Hn). cbn [of_fields hour minute second].
    now apply hms_range.
Qed.

(** X1: [from_seconds] always produces normalised fields: a non-negative
    hour, and minute and second in 0..59. *)
Theorem from_seconds_fields_normal (n : Z) :
  0 <= hour (from_seconds n)
  /\ 0 <= minute (from_seconds n) < 60
  /\ 0 <= second (from_seconds n) < 60.
Proof.
  apply from_seconds_fields_range.
Qed.

(** X2: the string of [from_seconds n] parses back to the same hour,
    minute and second, so to [abs n] seconds; the tag is "|" and the
    orientation is forgotten. *)
Theorem from_seconds_string_round_trip (n : Z) :
  parse (timestamp (from_seconds n))
  = Ok (mkVT (timestamp (from_seconds n)) Bar (hour (from_seconds n))
          (minute (from_seconds n)) (second (from_seconds n)) positive)
  /\ total_seconds
       (mkVT (timestamp (from_seconds n)) Bar (hour (from_seconds n))
          (minute (from_seconds n)) (second (from_seconds n)) positive)
     = Z.abs n.
Proof.
  destruct (from_seconds_fields_range n) as (Hh & [Hm _] & [Hs _]).
  split.
  - assert (E : timestamp (from_seconds n)
                = render Bar (hour (from_seconds n)) (minute (from_seconds n))
                    (second (from_seconds n))).
    { unfold from_seconds. destruct (n <? 0); reflexivity. }
    rewrite E at 1. rewrite (parse_render Bar _ _ _ Hh Hm Hs).
    now rewrite <- E.
  - apply (total_seconds_from_seconds n).
Qed.

(** X3: adding and then subtracting a number of seconds, or subtracting
    and then adding it, gives back the [total_seconds], as long as no
    intermediate value is negative. *)
Theorem add_sub_seconds_round_trip (a : VideoTimestamp) (n : Z) :
  0 <= n <= total_seconds a ->
  total_seconds (sub (add a (OfInt n)) (OfInt n)) = total_seconds a
  /\ total_seconds (add (sub a (OfInt n)) (OfInt n)) = total_seconds a.
Proof.
  intros Hn. cbn [add sub]. unfold minus_seconds, plus_seconds.
  rewrite !total_seconds_from_seconds. lia.
Qed.

Lemma add_sub_seconds_round_trip_witness :
  total_seconds (sub (add (from_seconds 100) (OfInt 40)) (OfInt 40))
  = total_seconds (from_seconds 100)
  /\ total_seconds (add (sub (from_seconds 100) (OfInt 40)) (OfInt 40))
     = total_seconds (from_seconds 100).
Proof.
  apply (add_sub_seconds_round_trip (from_seconds 100) 40).
  vm_compute. split; discriminate.
Defined.

(** A timestamp operand counts for its [total_seconds]: [+] and [-]
    give the same timestamp for [vt] as for the integer
    [vt.total_seconds]. *)
Lemma add_sub_timestamp_as_seconds (a vt : VideoTimestamp) :
  add a (OfTimestamp vt) = add a (OfInt (total_seconds vt))
  /\ sub a (OfTimestamp vt) = sub a (OfInt (total_seconds vt)).
Proof.
  split; [reflexivity |]. cbn [sub]. unfold minus, minus_seconds, plus_seconds.
  now rewrite Z.add_opp_r.
Qed.

(** X4: the comparisons are those of [total_seconds]: [<=] and [>=] are
    the negations of [>] and [<], [<=] is total and transitive, and
    [==] holds exactly when each is [<=] the other, fields apart. *)
Theorem comparisons_total_order (a b c : VideoTimestamp) :
  le a b = (total_seconds a <=? total_seconds b)
  /\ ge a b = (total_seconds b <=? total_seconds a)
  /\ le a b = negb (gt a b)
  /\ ge a b = negb (lt a b)
  /\ le a b || le b a = true
  /\ implb (le a b && le b c) (le a c) = true
  /\ le a b && le b a = eq a b
  /\ eq (mkVT "00:01:00" Bar 0 1 0 positive) (mkVT "00:00:60" Bar 0 0 60 positive)
     = true.
Proof.
  rewrite !le_leb. unfold ge, gt, lt, eq. rewrite !Z.gtb_ltb.
  destruct (Z.leb_spec (total_seconds a) (total_seconds b));
    destruct (Z.leb_spec (total_seconds b) (total_seconds a));
    destruct (Z.leb_spec (total_seconds b) (total_seconds c));
    destruct (Z.leb_spec (total_seconds a) (total_seconds c));
    destruct (Z.ltb_spec (total_seconds a) (total_seconds b));
    destruct (Z.ltb_spec (total_seconds b) (total_seconds a));
    destruct (Z.eqb_spec (total_seconds a) (total_seconds b));
    destruct (Z.eqb_spec (total_seconds b) (total_seconds a));
    cbn; repeat split; lia.
Qed.

End TimestampFacts.

(** * Further properties of parsing *)

Section ParsingFacts.
Import PyStr PyStrFacts.

(** X5: parsing lets an [IndexError] escape exactly on the empty string
    and on a body of one or two fields that are all integer literals. *)
Theorem parse_index_error_iff (s : string) :
  parse s = Err IndexError
  <-> s = EmptyString
      \/ (List.length (split ":" (body_of s)) < 3)%nat
         /\ forallb numeric (split ":" (body_of s)) = true.
Proof.
  destruct s as [| c r].
  { split; [now left | reflexivity]. }
  unfold parse, post_init, parse_string. cbn [body_of].
  set (fs := split ":" (remove_char (type_char (type_of_char c)) (String c r))).
  pose proof (split_not_nil ":" (remove_char (type_char (type_of_char c))
                                  (String c r))) as Hne.
  fold fs in Hne. unfold int_field, numeric.
  assert (Hcase :
    forall (x : result VideoTimestamp) (n : nat) (ok : bool),
      (x = Err IndexError <-> (n < 3)%nat /\ ok = true) ->
      x = Err IndexError
      <-> String c r = EmptyString \/ (n < 3)%nat /\ ok = true).
  { intros x n ok H. rewrite H. split; [now right |].
    intros [E | E]; [discriminate E | exact E]. }
  destruct fs as [| f0 [| f1 [| f2 more]]]; [now contradiction Hne | | |];
    apply Hcase; cbn [nth_error List.length forallb rbind].
  - destruct (py_int f0); cbn [rbind andb]; split;
      solve [ intros _; split; [lia | reflexivity] | intros _; reflexivity
            | discriminate | intros [_ H]; discriminate H ].
  - destruct (py_int f0); cbn [rbind andb];
      [destruct (py_int f1); cbn [rbind andb] |]; split;
      solve [ intros _; split; [lia | reflexivity] | intros _; reflexivity
            | discriminate | intros [_ H]; discriminate H ].
  - split; [| intros [H _]; lia].
    destruct (py_int f0); cbn [rbind]; [| discriminate].
    destruct (py_int f1); cbn [rbind]; [| discriminate].
    destruct (py_int f2); discriminate.
Qed.

Lemma parse_error_kind (s : string) :
  match parse s with
  | Ok _ => true
  | Err e => is_parse_error e
  end = true.
Proof.
  unfold parse, post_init, parse_string. destruct s as [| c r]; [reflexivity |].
  set (fs := split ":" _). unfold int_field.
  destruct (nth_error fs 0) as [f0 |]; [| reflexivity].
  destruct (py_int f0); [| reflexivity]. cbn [rbind].
  destruct (nth_error fs 1) as [f1 |]; [| reflexivity].
  destruct (py_int f1); [| reflexivity]. cbn [rbind].
  destruct (nth_error fs 2) as [f2 |]; [| reflexivity].
  destruct (py_int f2); reflexivity.
Qed.

(** X6: parsing a string raises nothing but [IndexError] and
    [InvalidFormat]. *)
Theorem parse_only_raises_index_or_format (s : string) :
  match parse s with
  | Ok _ => true
  | Err e => is_parse_error e
  end = true.
Proof. apply parse_error_kind. Qed.

(** X7: the tag is not a sign.  On a rest without "+" or "-", a leading
    "-" and a leading "+" give the same string and the same hour, minute
    and second (or the same exception): a leading "-" negates nothing. *)
Theorem parse_tag_is_not_a_sign (r : string) :
  no_char "+" r = true -> no_char "-" r = true ->
  same_fields (parse (String "-" r)) (parse (String "+" r)).
Proof.
  intros Hp Hm. unfold parse, post_init, parse_string.
  change (type_of_char "-") with Minus. change (type_of_char "+") with Plus.
  rewrite !remove_char_head.
  rewrite (remove_char_absent _ _ Hp), (remove_char_absent _ _ Hm).
  set (fs := split ":" r).
  destruct (int_field fs 0); cbn [rbind same_fields]; [| reflexivity].
  destruct (int_field fs 1); cbn [rbind same_fields]; [| reflexivity].
  destruct (int_field fs 2); cbn [rbind same_fields]; [| reflexivity].
  cbn. repeat split.
Qed.

Lemma parse_tag_is_not_a_sign_witness :
  same_fields (parse "-01:02:03") (parse "+01:02:03").
Proof. apply (parse_tag_is_not_a_sign "01:02:03"); reflexivity. Defined.

End ParsingFacts.

(** * Further properties of division and velocity selection *)

Lemma round_half_even_lower (n d : Z) :
  0 < d -> n / d <= round_half_even n d.
Proof.
  intros Hd. unfold round_half_even.
  destruct (2 * (n mod d) ?= d); [destruct (Z.even (n / d)) | |]; lia.
Qed.

Lemma round_half_even_upper (n d : Z) :
  0 < d -> 2 * d * round_half_even n d <= 2 * n + d.
Proof.
  intros Hd. unfold round_half_even.
  pose proof (Z.div_mod n d ltac:(lia)) as Hn.
  pose proof (Z.mod_pos_bound n d Hd) as Hr.
  destruct (Z.compare_spec (2 * (n mod d)) d);
    [destruct (Z.even (n / d)) | |]; nia.
Qed.

(** The exponent that [quot_exponent] picks is not above the quotient:
    [b * 2^k <= a] for [k = quot_exponent a b + 52]. *)
Lemma quot_exponent_lower (a b : Z) :
  0 < a -> 0 < b ->
  b * 2 ^ Z.max 0 (quot_exponent a b + 52)
  <= a * 2 ^ Z.max 0 (- (quot_exponent a b + 52)).
Proof.
  intros Ha Hb. unfold quot_exponent.
  set (d := Z.log2 a - Z.log2 b).
  destruct (Z.ltb_spec (a * 2 ^ Z.max 0 (- d)) (b * 2 ^ Z.max 0 d)) as [Hlt | Hge].
  - replace (d - 1 - 52 + 52) with (d - 1) by lia.
    pose proof (Z.log2_spec a Ha) as [La _].
    pose proof (Z.log2_spec b Hb) as [_ Lb].
    pose proof (Z.log2_nonneg a). pose proof (Z.log2_nonneg b).
    destruct (Z.le_gt_cases 1 d) as [Hd | Hd].
    + rewrite (Z.max_r 0 (d - 1)), (Z.max_l 0 (- (d - 1))) by lia.
      rewrite Z.pow_0_r, Z.mul_1_r.
      apply Z.le_trans with (2 ^ Z.log2 a); [| exact La].
      replace (Z.log2 a) with (Z.succ (Z.log2 b) + (d - 1)) by (unfold d; lia).
      rewrite Z.pow_add_r by lia.
      apply Z.mul_le_mono_nonneg_r; [apply Z.pow_nonneg; lia | lia].
    + rewrite (Z.max_l 0 (d - 1)), (Z.max_r 0 (- (d - 1))) by lia.
      rewrite Z.pow_0_r, Z.mul_1_r.
      apply Z.le_trans with (2 ^ Z.log2 a * 2 ^ (- (d - 1))).
      * rewrite <- Z.pow_add_r by lia.
        replace (Z.log2 a + - (d - 1)) with (Z.succ (Z.log2 b))
          by (unfold d; lia).
        lia.
      * apply Z.mul_le_mono_nonneg_r; [apply Z.pow_nonneg; lia | exact La].
  - replace (d - 52 + 52) with d by lia. exact Hge.
Qed.

Lemma quot_exponent_le_log2 (a b : Z) :
  0 < b -> quot_exponent a b + 52 <= Z.log2 a.
Proof.
  intros Hb. unfold quot_exponent. pose proof (Z.log2_nonneg b).
  destruct (_ <? _); lia.
Qed.

(** Below [2^53] the nearest binary64 number to a quotient truncates to
    the floor of the quotient. *)
Lemma py_int_truediv_floor (a b : Z) :
  0 <= a < 2 ^ 53 -> 0 < b -> py_int_truediv a b = Ok (a / b).
Proof.
  intros [Ha0 Ha] Hb. unfold py_int_truediv.
  destruct (Z.eqb_spec b 0); [lia |].
  destruct (Z.eqb_spec a 0) as [-> | Hne]; [now rewrite Z.div_0_l by lia |].
  rewrite (Z.abs_eq a), (Z.abs_eq b) by lia.
  rewrite (Z.sgn_pos a), (Z.sgn_pos b) by lia. unfold truediv_pos.
  pose proof (quot_exponent_lower a b ltac:(lia) Hb) as Hlow.
  pose proof (quot_exponent_le_log2 a b Hb) as Hk.
  assert (Hl : Z.log2 a < 53) by (apply Z.log2_lt_pow2; lia).
  set (e := quot_exponent a b) in *.
  assert (He : e <= 0) by lia.
  rewrite (Z.max_l 0 e), (Z.max_r 0 (- e)) by lia.
  rewrite Z.pow_0_r, Z.mul_1_r.
  set (S := 2 ^ (- e)).
  assert (HS : 0 < S) by (apply Z.pow_pos_nonneg; lia).
  set (m := round_half_even (a * S) b).
  destruct (Z.ltb_spec 971 e); [lia |].
  destruct (Z.eqb_spec e 971); [lia |]. cbn [orb andb rbind].
  rewrite !Z.mul_1_l. f_equal.
  (* the truncation is [m / S] in both cases *)
  assert (Ht : (if 0 <=? e then m * 2 ^ e else m / 2 ^ (- e)) = m / S).
  { destruct (Z.leb_spec 0 e).
    - assert (e = 0) as E by lia. unfold S. rewrite E. cbn.
      now rewrite Z.mul_1_r, Z.div_1_r.
    - reflexivity. }
  rewrite Ht.
  (* [b < 2 * S] *)
  assert (HbS : b < 2 * S).
  { set (K := 2 ^ Z.max 0 (e + 52)) in *.
    set (K' := 2 ^ Z.max 0 (- (e + 52))) in *.
    assert (HK : 0 < K) by (apply Z.pow_pos_nonneg; lia).
    assert (HK' : 0 < K') by (apply Z.pow_pos_nonneg; lia).
    assert (HSK : S * K = 2 ^ 52 * K').
    { unfold S, K, K'. rewrite <- !Z.pow_add_r by lia. f_equal. lia. }
    assert (H1 : b * K * S <= a * K' * S)
      by (apply Z.mul_le_mono_nonneg_r; lia).
    assert (H2 : a * K' * S < 2 ^ 53 * (K' * S)).
    { rewrite <- Z.mul_assoc. apply Z.mul_lt_mono_pos_r; [nia | lia]. }
    assert (E1 : b * K * S = b * (2 ^ 52 * K')) by (rewrite <- HSK; ring).
    assert (E2 : 2 ^ 53 * (K' * S) = 2 * S * (2 ^ 52 * K'))
      by (change (2 ^ 53) with (2 * 2 ^ 52); ring).
    assert (H3 : b * (2 ^ 52 * K') < 2 * S * (2 ^ 52 * K'))
      by (rewrite <- E1, <- E2; lia).
    apply Z.mul_lt_mono_pos_r in H3; [exact H3 |].
    apply Z.mul_pos_pos; [| exact HK']. apply Z.pow_pos_nonneg; lia. }
  pose proof (round_half_even_lower (a * S) b Hb) as Hml.
  pose proof (round_half_even_upper (a * S) b Hb) as Hmu.
  fold m in Hml, Hmu.
  pose proof (Z.div_mod a b ltac:(lia)) as Hab.
  pose proof (Z.mod_pos_bound a b Hb) as Hr.
  apply Z.le_antisymm.
  - (* m / S <= a / b *)
    apply Z.lt_succ_r. apply Z.div_lt_upper_bound; [exact HS |].
    assert (Hx : 2 * b * m < 2 * b * (S * Z.succ (a / b))) by nia.
    apply Z.mul_lt_mono_pos_l in Hx; [exact Hx | lia].
  - (* a / b <= m / S *)
    apply Z.div_le_lower_bound; [exact HS |].
    apply Z.le_trans with (a * S / b); [| exact Hml].
    apply Z.div_le_lower_bound; [exact Hb |]. nia.
Qed.

(** X8: [a - b] is the distance between [a] and [b]: never negative,
    the same as [b - a], zero exactly when [a == b], and it satisfies
    the triangle inequality. *)
Theorem minus_is_distance (a b c : VideoTimestamp) :
  0 <= total_seconds (minus a b)
  /\ total_seconds (minus a b) = total_seconds (minus b a)
  /\ (total_seconds (minus a b) =? 0) = eq a b
  /\ total_seconds (minus a c)
     <= total_seconds (minus a b) + total_seconds (minus b c).
Proof.
  rewrite !total_seconds_minus. unfold eq.
  split; [lia |]. split; [lia |]. split; [| lia].
  destruct (Z.eqb_spec (Z.abs (total_seconds a - total_seconds b)) 0);
    destruct (Z.eqb_spec (total_seconds a) (total_seconds b));
    reflexivity || lia.
Qed.

(** X9: on a dividend of less than [2^53] seconds and a positive
    divisor, [int(a / b)] is the floor division [a // b]. *)
Theorem truediv_int_is_floordiv (x y : VideoTimestamp) :
  0 <= total_seconds x < 2 ^ 53 ->
  0 < total_seconds y ->
  truediv_int x y = floordiv x y
  /\ floordiv x y = Ok (total_seconds x / total_seconds y).
Proof.
  intros Hx Hy. unfold truediv_int, floordiv.
  rewrite (py_int_truediv_floor _ _ Hx Hy).
  destruct (Z.eqb_spec (total_seconds y) 0); [lia |]. split; reflexivity.
Qed.

Lemma truediv_int_is_floordiv_witness :
  truediv_int (from_seconds 100) (from_seconds 30)
  = floordiv (from_seconds 100) (from_seconds 30)
  /\ floordiv (from_seconds 100) (from_seconds 30)
     = Ok (total_seconds (from_seconds 100) / total_seconds (from_seconds 30)).
Proof.
  apply (truediv_int_is_floordiv (from_seconds 100) (from_seconds 30)).
  - vm_compute. split; [discriminate | reflexivity].
  - reflexivity.
Defined.

(** X10: both divisions raise [ZeroDivisionError] exactly when the
    divisor has [total_seconds] zero. *)
Theorem division_by_zero_iff (x y : VideoTimestamp) :
  (truediv_int x y = Err ZeroDivisionError <-> total_seconds y = 0)
  /\ (floordiv x y = Err ZeroDivisionError <-> total_seconds y = 0).
Proof.
  unfold truediv_int, floordiv, py_int_truediv, truediv_pos.
  destruct (Z.eqb_spec (total_seconds y) 0) as [E | E].
  - split; split; auto.
  - split; (split; [| intros; contradiction]).
    + destruct (total_seconds x =? 0); [discriminate |].
      destruct (_ || _); cbn [rbind]; discriminate.
    + discriminate.
Qed.

Section GetVelFacts.

Variable raw : nat -> Z.

(** With the default durations and a difference of more than 10 s, the
    first two draws are 0 and the third is the divisor. *)
Lemma get_vel_long_divisor (vt1 vt2 : VideoTimestamp) (w : world) :
  10 < total_seconds (minus vt2 vt1) ->
  get_vel raw vt1 vt2 default_min_speed_duration default_max_speed_duration w
  = (py_int_truediv (total_seconds (minus vt2 vt1))
       (10 + raw (S (S (draws w))) mod 21),
     mkWorld (3 + draws w) (files w) (trace w)).
Proof.
  intros Hd. unfold get_vel. rewrite range_guard_false.
  unfold bind at 1. unfold lift at 1. rewrite parse_default_min, le_leb.
  change (total_seconds (mkVT "00:00:10" Bar 0 0 10 positive)) with 10.
  destruct (Z.leb_spec (total_seconds (minus vt2 vt1)) 10); [lia |].
  unfold bind at 1. unfold lift at 1. rewrite parse_default_max.
  cbn [hour minute second].
  unfold bind, randint, lift, post_init, truediv_int. cbn.
  rewrite !Z.mod_1_r. cbn. reflexivity.
Qed.

(** X11: with the default durations, on a difference [gap] of more than
    10 s and less than [2^53] s, [get_vel] does not fail: it draws three
    numbers and returns [gap // d] for the drawn duration [d] of 10 to
    30 s, so between [gap // 30] and [gap // 10]. *)
Theorem get_vel_default_long_gap (vt1 vt2 : VideoTimestamp) (w : world) :
  10 < total_seconds (minus vt2 vt1) < 2 ^ 53 ->
  get_vel raw vt1 vt2 default_min_speed_duration default_max_speed_duration w
  = (Ok (total_seconds (minus vt2 vt1) / (10 + raw (S (S (draws w))) mod 21)),
     mkWorld (3 + draws w) (files w) (trace w))
  /\ total_seconds (minus vt2 vt1) / 30
     <= total_seconds (minus vt2 vt1) / (10 + raw (S (S (draws w))) mod 21)
     <= total_seconds (minus vt2 vt1) / 10.
Proof.
  intros [Hlo Hhi].
  pose proof (Z.mod_pos_bound (raw (S (S (draws w)))) 21 ltac:(lia)) as Hd.
  split.
  - rewrite (get_vel_long_divisor vt1 vt2 w Hlo).
    rewrite py_int_truediv_floor by lia. reflexivity.
  - split; apply Z.div_le_compat_l; lia.
Qed.

(** X12: [get_vel] does not see the order of its two timestamps. *)
Theorem get_vel_symmetric (vt1 vt2 : VideoTimestamp) (mn mx : string)
    (w : world) :
  get_vel raw vt1 vt2 mn mx w = get_vel raw vt2 vt1 mn mx w.
Proof.
  assert (Ht : total_seconds (minus vt2 vt1) = total_seconds (minus vt1 vt2))
    by (rewrite !total_seconds_minus; lia).
  unfold get_vel. rewrite !range_guard_false. unfold bind, lift.
  destruct (parse mn) as [dmin | e]; [| reflexivity].
  rewrite !le_leb, Ht.
  destruct (_ <=? _); [reflexivity |].
  destruct (parse mx) as [dmax | e]; [| reflexivity].
  destruct (randint raw (hour dmin) (hour dmax) w) as [[h | e] w1];
    [| reflexivity].
  destruct (randint raw (minute dmin) (minute dmax) w1) as [[m | e] w2];
    [| reflexivity].
  destruct (randint raw (second dmin) (second dmax) w2) as [[s | e] w3];
    [| reflexivity].
  cbn [post_init]. unfold truediv_int. now rewrite Ht.
Qed.

(** X13: the random duration is drawn field by field.  When some field
    of [max_speed_duration] is below the same field of
    [min_speed_duration], and the difference exceeds the minimum,
    [get_vel] fails on an empty range. *)
Theorem get_vel_empty_range (vt1 vt2 dmin dmax : VideoTimestamp)
    (mn mx : string) (w : world) :
  parse mn = Ok dmin -> parse mx = Ok dmax ->
  total_seconds dmin < total_seconds (minus vt2 vt1) ->
  hour dmax < hour dmin \/ minute dmax < minute dmin
  \/ second dmax < second dmin ->
  fst (get_vel raw vt1 vt2 mn mx w) = Err EmptyRange.
Proof.
  intros Hmn Hmx Hgap Hfield.
  unfold get_vel. rewrite range_guard_false. unfold bind, lift.
  rewrite Hmn, le_leb.
  destruct (Z.leb_spec (total_seconds (minus vt2 vt1)) (total_seconds dmin));
    [lia |].
  rewrite Hmx. unfold randint.
  destruct (Z.ltb_spec (hour dmax) (hour dmin)); [reflexivity |].
  cbn [draws files trace].
  destruct (Z.ltb_spec (minute dmax) (minute dmin)); [reflexivity |].
  destruct (Z.ltb_spec (second dmax) (second dmin)); [reflexivity | lia].
Qed.

End GetVelFacts.

Lemma get_vel_default_long_gap_witness :
  get_vel (fun _ => 5) (from_seconds 5) (from_seconds 105)
    default_min_speed_duration default_max_speed_duration (init_world [])
  = (Ok (total_seconds (minus (from_seconds 105) (from_seconds 5))
         / (10 + 5 mod 21)),
     mkWorld 3 [] [])
  /\ total_seconds (minus (from_seconds 105) (from_seconds 5)) / 30
     <= total_seconds (minus (from_seconds 105) (from_seconds 5))
        / (10 + 5 mod 21)
     <= total_seconds (minus (from_seconds 105) (from_seconds 5)) / 10.
Proof.
  apply (get_vel_default_long_gap (fun _ => 5) (from_seconds 5)
           (from_seconds 105) (init_world [])).
  vm_compute. split; reflexivity.
Defined.

Lemma get_vel_empty_range_witness :
  fst (get_vel (fun _ => 0) (from_seconds 0) (from_seconds 100)
         "00:00:50" "00:01:10" (init_world []))
  = Err EmptyRange.
Proof.
  apply (get_vel_empty_range (fun _ => 0) (from_seconds 0) (from_seconds 100)
           (mkVT "00:00:50" Bar 0 0 50 positive)
           (mkVT "00:01:10" Bar 0 1 10 positive)).
  - reflexivity.
  - reflexivity.
  - reflexivity.
  - right. right. reflexivity.
Defined.

(** * Reading the list of timestamps *)

Section ParseTimestampsFacts.
Import PyStr PyStrFacts.

Lemma strip_left_starts_plain (s : string) :
  starts_plain (strip_left s) = true.
Proof.
  induction s as [| d s IH]; [reflexivity |]. cbn [strip_left].
  destruct (is_strip_space d) eqn:E; [exact IH |]. cbn. now rewrite E.
Qed.

Lemma strip_left_plain (s : string) :
  starts_plain s = true -> strip_left s = s.
Proof.
  destruct s as [| d s]; [reflexivity |]. cbn.
  now destruct (is_strip_space d).
Qed.

Lemma strip_right_starts_plain (s : string) :
  starts_plain s = true -> starts_plain (strip_right s) = true.
Proof.
  destruct s as [| d s]; [reflexivity |]. cbn [starts_plain strip_right].
  intros Hd. apply negb_true_iff in Hd. rewrite Hd.
  destruct (strip_right s); cbn; now rewrite Hd.
Qed.

Lemma strip_right_idempotent (s : string) :
  strip_right (strip_right s) = strip_right s.
Proof.
  induction s as [| d s IH]; [reflexivity |]. cbn [strip_right].
  destruct (strip_right s) as [| x r] eqn:E.
  - destruct (is_strip_space d) eqn:Ed; [reflexivity |].
    cbn. now rewrite Ed.
  - cbn [strip_right] in IH |- *. now rewrite IH.
Qed.

Lemma strip_idempotent (s : string) : strip (strip s) = strip s.
Proof.
  unfold strip.
  rewrite (strip_left_plain (strip_right (strip_left s)))
    by (apply strip_right_starts_plain, strip_left_starts_plain).
  apply strip_right_idempotent.
Qed.

Lemma no_char_strip_left (c : ascii) (s : string) :
  no_char c s = true -> no_char c (strip_left s) = true.
Proof.
  induction s as [| d s IH]; [reflexivity |]. cbn [strip_left].
  intros H. destruct (is_strip_space d); [| exact H].
  apply IH. unfold no_char in H. cbn in H. now apply andb_prop in H.
Qed.

Lemma no_char_strip_right (c : ascii) (s : string) :
  no_char c s = true -> no_char c (strip_right s) = true.
Proof.
  induction s as [| d s IH]; [reflexivity |]. intros H.
  unfold no_char in H. cbn in H. apply andb_prop in H as [Hd Hs].
  specialize (IH Hs). cbn [strip_right].
  destruct (strip_right s) as [| x r].
  - destruct (is_strip_space d); [reflexivity |].
    unfold no_char. cbn. now rewrite Hd.
  - unfold no_char in *. cbn [forall_chars] in *. now rewrite Hd, IH.
Qed.

Lemma no_char_strip (c : ascii) (s : string) :
  no_char c s = true -> no_char c (strip s) = true.
Proof. intros H. now apply no_char_strip_right, no_char_strip_left. Qed.

Lemma strip_all_space (s : string) :
  forall_chars is_strip_space s = true -> strip s = EmptyString.
Proof.
  unfold strip. induction s as [| d s IH]; [reflexivity |]. cbn.
  intros [Hd Hs]%andb_prop. rewrite Hd. now apply IH.
Qed.

(** [parse_timestamps] works line by line. *)
Lemma parse_timestamps_line (l rest : string) :
  no_char newline l = true ->
  parse_timestamps (l ++ String newline rest)
  = ((if (l =? EmptyString)%string then [] else [strip l])
       ++ parse_timestamps rest)%list.
Proof.
  intros Hl. unfold parse_timestamps. rewrite (split_app_sep _ _ _ Hl).
  cbn [filter]. now destruct (l =? EmptyString)%string.
Qed.

Lemma parse_timestamps_last (l : string) :
  no_char newline l = true ->
  parse_timestamps l = if (l =? EmptyString)%string then [] else [strip l].
Proof.
  intros Hl. unfold parse_timestamps. rewrite (split_absent _ _ Hl).
  cbn [filter]. now destruct (l =? EmptyString)%string.
Qed.

(** X14: every timestamp that [parse_timestamps] returns is free of line
    breaks and of white space at both ends. *)
Theorem parse_timestamps_lines_stripped (txt : string) :
  Forall (fun l => no_char newline l = true /\ strip l = l)
    (parse_timestamps txt).
Proof.
  unfold parse_timestamps. apply Forall_map, Forall_forall.
  intros l [Hin _]%filter_In. split; [| apply strip_idempotent].
  apply no_char_strip.
  pose proof (split_fields_no_sep newline txt) as Hall.
  rewrite forallb_forall in Hall. now apply Hall.
Qed.

(** X15: a line of white space only is not dropped: it is returned as
    the empty string, on which parsing raises [IndexError]. *)
Theorem parse_timestamps_blank_line (ws rest : string) :
  ws <> EmptyString ->
  forall_chars is_strip_space ws = true ->
  no_char newline ws = true ->
  parse_timestamps (ws ++ String newline rest)
  = EmptyString :: parse_timestamps rest
  /\ parse EmptyString = Err IndexError.
Proof.
  intros Hne Hws Hnl. split; [| reflexivity].
  rewrite (parse_timestamps_line ws rest Hnl), (strip_all_space ws Hws).
  destruct (String.eqb_spec ws EmptyString); [contradiction | reflexivity].
Qed.

Lemma parse_timestamps_blank_line_witness :
  parse_timestamps ("  " ++ String newline "00:00:10")
  = EmptyString :: parse_timestamps "00:00:10"
  /\ parse EmptyString = Err IndexError.
Proof.
  apply (parse_timestamps_blank_line "  " "00:00:10");
    [discriminate | reflexivity | reflexivity].
Defined.

Lemma string_app_assoc (a b c : string) :
  ((a ++ b) ++ c = a ++ (b ++ c))%string.
Proof. induction a as [| d a IH]; cbn; [reflexivity | now rewrite IH]. Qed.

Lemma split_join (sep : ascii) (ls : list string) :
  ls <> [] -> Forall (fun l => no_char sep l = true) ls ->
  split sep (join sep ls) = ls.
Proof.
  induction ls as [| l ls IH]; [now intros H |]. intros _ Hall.
  inversion Hall as [| ? ? Hl Hls]; subst.
  destruct ls as [| l' ls]; [now apply split_absent |].
  cbn [join]. rewrite (split_app_sep _ _ _ Hl). f_equal.
  apply IH; [discriminate | exact Hls].
Qed.

(** X16: a text of plain lines joined by line breaks, with or without a
    line break at the end, is read back as those lines. *)
Theorem parse_timestamps_join (ls : list string) :
  Forall plain_line ls ->
  parse_timestamps (join newline ls) = ls
  /\ parse_timestamps (join newline ls ++ String newline EmptyString) = ls.
Proof.
  intros Hall.
  assert (Hkeep : map strip (filter (fun line => negb (line =? EmptyString)%string) ls) = ls).
  { induction Hall as [| l ls (Hne & _ & Hs) _ IH]; [reflexivity |].
    cbn [filter]. destruct (String.eqb_spec l EmptyString); [contradiction |].
    cbn [negb map]. now rewrite Hs, IH. }
  assert (Hnl : Forall (fun l => no_char newline l = true) ls).
  { apply (Forall_impl _ (P := plain_line)); [| exact Hall].
    now intros l (_ & H & _). }
  destruct (list_eq_dec string_dec ls []) as [-> | Hne]; [split; reflexivity |].
  unfold parse_timestamps. split.
  - now rewrite (split_join newline ls Hne Hnl).
  - assert (Hs : split newline (join newline ls ++ String newline EmptyString)
                 = (ls ++ [EmptyString])%list).
    { clear Hkeep Hall. induction ls as [| l ls IH]; [now contradiction Hne |].
      inversion Hnl as [| ? ? Hl Hls]; subst.
      destruct ls as [| l' ls].
      - cbn [join]. now rewrite (split_app_sep _ _ _ Hl).
      - cbn [join]. rewrite string_app_assoc. cbn [append].
        rewrite (split_app_sep _ _ _ Hl). cbn [app]. f_equal.
        apply IH; [exact Hls | discriminate]. }
    rewrite Hs, filter_app, map_app. cbn. now rewrite Hkeep, app_nil_r.
Qed.

End ParseTimestampsFacts.

Lemma parse_timestamps_join_witness :
  parse_timestamps (PyStr.join newline ["00:00:00"; "00:00:40"])
  = ["00:00:00"; "00:00:40"]
  /\ parse_timestamps
       (PyStr.join newline ["00:00:00"; "00:00:40"]
          ++ String newline EmptyString)
     = ["00:00:00"; "00:00:40"].
Proof.
  apply (parse_timestamps_join ["00:00:00"; "00:00:40"]).
  repeat constructor; discriminate.
Defined.

(** * Further properties of whole runs *)

Lemma py_int_truediv_error (a b : Z) (e : exn) :
  b <> 0 -> py_int_truediv a b = Err e -> e = OverflowError.
Proof.
  intros Hb. unfold py_int_truediv, truediv_pos.
  destruct (Z.eqb_spec b 0); [contradiction |].
  destruct (a =? 0); [discriminate |].
  destruct (_ || _); cbn [rbind]; [| discriminate]. now intros [= <-].
Qed.

Lemma ffmpeg_cmd_error (i o s t : string) (v : Z) (e : exn) :
  ffmpeg_cmd i o s t v = Err e -> is_planner_error e = true.
Proof.
  unfold ffmpeg_cmd. destruct (v =? 0); [now intros [= <-] |].
  destruct (_ <=? _); [now intros [= <-] | discriminate].
Qed.

Lemma parse_error_is_planner_error (s : string) (e : exn) :
  parse s = Err e -> is_planner_error e = true.
Proof.
  intros H. pose proof (parse_error_kind s) as K. rewrite H in K.
  now destruct e.
Qed.

Lemma count_built_app (k : seg_kind) (t1 t2 : list event) :
  count_built k (t1 ++ t2) = (count_built k t1 + count_built k t2)%nat.
Proof.
  induction t1 as [| [[] c | k' c] t1 IH]; cbn [app count_built];
    [reflexivity | | | exact IH]; destruct k; rewrite IH; reflexivity.
Qed.

Section HoareRules.

Context {A B : Type}.

Lemma hoare_bind (P : world -> Prop) (c : M A) (k : A -> M B)
    (Q : A -> world -> Prop) (R : B -> world -> Prop)
    (E : exn -> world -> Prop) :
  hoare P c Q E -> (forall a, hoare (Q a) (k a) R E) -> hoare P (bind c k) R E.
Proof.
  intros Hc Hk w Hw. unfold bind. specialize (Hc w Hw).
  destruct (c w) as [[a | e] w']; [apply (Hk a w' Hc) | exact Hc].
Qed.

Lemma hoare_bind_lift (P : world -> Prop) (r : result A) (k : A -> M B)
    (R : B -> world -> Prop) (E : exn -> world -> Prop) :
  (forall a, r = Ok a -> hoare P (k a) R E) ->
  (forall e w, r = Err e -> P w -> E e w) ->
  hoare P (bind (lift r) k) R E.
Proof.
  intros Hok Herr w Hw. unfold bind, lift.
  destruct r as [a | e]; [apply (Hok a eq_refl w Hw) | now apply Herr].
Qed.

End HoareRules.

Lemma hoare_ret {A} (P : world -> Prop) (a : A) (E : exn -> world -> Prop) :
  hoare P (ret a) (fun _ => P) E.
Proof. intros w Hw. exact Hw. Qed.

Lemma hoare_weaken {A} (P P' : world -> Prop) (c : M A)
    (Q Q' : A -> world -> Prop) (E : exn -> world -> Prop) :
  hoare P c Q E -> (forall w, P' w -> P w) -> (forall a w, Q a w -> Q' a w) ->
  hoare P' c Q' E.
Proof.
  intros Hc HP HQ w Hw. specialize (Hc w (HP w Hw)).
  destruct (c w) as [[a | e] w']; [now apply HQ | exact Hc].
Qed.

Lemma hoare_bind_log {B} (P P' : world -> Prop) (e : event) (k : unit -> M B)
    (R : B -> world -> Prop) (E : exn -> world -> Prop) :
  (forall w, P w -> P' (built e w)) ->
  hoare P' (k tt) R E ->
  hoare P (bind (log e) k) R E.
Proof. intros Hlog Hk w Hw. unfold bind, log. apply Hk, Hlog, Hw. Qed.

Lemma hoare_bind_path_exists {B} (P : world -> Prop) (path : string)
    (k : bool -> M B) (R : B -> world -> Prop) (E : exn -> world -> Prop) :
  (forall b, hoare P (k b) R E) -> hoare P (bind (path_exists path) k) R E.
Proof. intros Hk w Hw. unfold bind, path_exists. now apply Hk. Qed.

Section RunFacts.

Variable raw : nat -> Z.
Variable run_tool : segment -> list string -> bool * list string.
Variables (input_file stem suffix : string) (in_out_folder : string -> string).

Local Abbreviation wf := (well_formed input_file stem suffix in_out_folder).

(** [r] rest commands and at most [v] accelerated commands were built,
    all of them well formed. *)
Let J (r v : nat) (w : world) : Prop :=
  Forall wf (trace w)
  /\ count_built RestSeg (trace w) = r
  /\ (count_built VelSeg (trace w) <= v)%nat.

Let EJ (e : exn) (w : world) : Prop :=
  is_planner_error e = true /\ Forall wf (trace w).

Lemma get_vel_default_outcome (a b : VideoTimestamp) (w : world) :
  exists r n,
    get_vel raw a b default_min_speed_duration default_max_speed_duration w
    = (r, mkWorld (n + draws w) (files w) (trace w))
    /\ match r with Ok v => 0 <= v | Err e => e = OverflowError end.
Proof.
  destruct (Z.le_gt_cases (total_seconds (minus b a)) 10) as [Hs | Hl].
  - exists (Ok 1), 0%nat. rewrite (get_vel_short raw a b _ w Hs).
    split; [now destruct w | lia].
  - rewrite (get_vel_long_divisor raw a b w ltac:(lia)).
    eexists; exists 3%nat. split; [reflexivity |].
    pose proof (Z.mod_pos_bound (raw (S (S (draws w)))) 21 ltac:(lia)).
    destruct (py_int_truediv _ _) as [v | e] eqn:E.
    + apply (py_int_truediv_nonneg _ _ v) in E; [exact E | | lia].
      rewrite total_seconds_minus. apply Z.abs_nonneg.
    + apply py_int_truediv_error in E; [exact E | lia].
Qed.

Lemma hoare_bind_get_vel {B} (r v : nat) (a b : VideoTimestamp)
    (k : Z -> M B) (R : B -> world -> Prop) :
  (forall x, 0 <= x -> hoare (J r v) (k x) R EJ) ->
  hoare (J r v)
    (bind (get_vel raw a b default_min_speed_duration
             default_max_speed_duration) k) R EJ.
Proof.
  intros Hk w Hw. unfold bind.
  destruct (get_vel_default_outcome a b w) as (res & n & -> & Hres).
  destruct res as [x | e].
  - apply (Hk x Hres). exact Hw.
  - subst e. split; [reflexivity | apply Hw].
Qed.

Lemma J_built_rest (r v : nat) (c : segment) (w : world) :
  wf (Built RestSeg c) -> J r v w -> J (S r) v (built (Built RestSeg c) w).
Proof.
  intros Hc (Hwf & Hr & Hv). unfold J, built. cbn [trace].
  rewrite !count_built_app. cbn [count_built].
  split; [apply Forall_app; split; [exact Hwf | now constructor] |].
  split; lia.
Qed.

Lemma J_built_vel (r v : nat) (c : segment) (w : world) :
  wf (Built VelSeg c) -> J r v w -> J r (S v) (built (Built VelSeg c) w).
Proof.
  intros Hc (Hwf & Hr & Hv). unfold J, built. cbn [trace].
  rewrite !count_built_app. cbn [count_built].
  split; [apply Forall_app; split; [exact Hwf | now constructor] |].
  split; lia.
Qed.

Lemma hoare_run_unless_present (r v : nat) (present : bool) (k : seg_kind)
    (c : segment) :
  wf (Ran k c) ->
  hoare (J r v) (if negb present then check_output run_tool k c else ret tt)
    (fun _ => J r v) EJ.
Proof.
  intros Hc. destruct present; cbn [negb]; [apply hoare_ret |].
  intros w (Hwf & Hr & Hv). unfold check_output.
  destruct (run_tool c (files w)) as [ok files'].
  assert (HJ : J r v (mkWorld (draws w) files' (trace w ++ [Ran k c]))).
  { unfold J. cbn [trace]. rewrite !count_built_app. cbn [count_built].
    split; [apply Forall_app; split; [exact Hwf | now constructor] |].
    split; lia. }
  destruct ok; [exact HJ |]. split; [reflexivity | apply HJ].
Qed.

Lemma J_mono (r v v' : nat) (w : world) :
  (v <= v')%nat -> J r v w -> J r v' w.
Proof.
  intros Hv (H1 & H2 & H3). split; [exact H1 |]. split; [exact H2 | lia].
Qed.

Lemma EJ_of_J (r v : nat) (e : exn) (w : world) :
  is_planner_error e = true -> J r v w -> EJ e w.
Proof. intros He HJ. split; [exact He | apply HJ]. Qed.

Lemma hoare_pair_step (rest_time offset : VideoTimestamp) (i : nat)
    (t1 t2 : string) (r : nat) :
  hoare (J r r)
    (pair_step raw run_tool input_file stem suffix in_out_folder
       rest_time offset i t1 t2)
    (fun _ => J (S r) (S r)) EJ.
Proof.
  unfold pair_step. cbv zeta.
  apply hoare_bind_lift;
    [intros p1 _ | intros e w He; apply EJ_of_J, (parse_error_is_planner_error _ _ He)].
  apply hoare_bind_lift;
    [intros p2 _ | intros e w He; apply EJ_of_J, (parse_error_is_planner_error _ _ He)].
  apply hoare_bind_get_vel. intros x Hx.
  set (vt1 := minus p1 offset). set (vt2 := minus p2 offset).
  assert (Hrest : forall to_n,
    wf (Built RestSeg
          (mkSeg input_file (out_file stem suffix in_out_folder i "1")
             (timestamp vt1) (timestamp (from_seconds to_n)) 1))
    /\ wf (Ran RestSeg
          (mkSeg input_file (out_file stem suffix in_out_folder i "1")
             (timestamp vt1) (timestamp (from_seconds to_n)) 1))).
  { intros to_n. split; (split; [reflexivity |]; split; [now exists i |];
      split; [now eexists | now eexists]). }
  assert (Hvel : forall y,
    wf (Built VelSeg
          (mkSeg input_file (out_file stem suffix in_out_folder i "2")
             (timestamp (plus vt1 rest_time)) (timestamp vt2) y))
    /\ wf (Ran VelSeg
          (mkSeg input_file (out_file stem suffix in_out_folder i "2")
             (timestamp (plus vt1 rest_time)) (timestamp vt2) y))).
  { intros y. split; (split; [reflexivity |]; split; [now exists i |];
      split; [now eexists | now eexists]). }
  destruct (total_seconds (minus vt2 vt1) <? 25) eqn:Hshort.
  - apply Z.ltb_lt in Hshort. rewrite ffmpeg_cmd_one.
    apply hoare_bind_lift; [intros c [= <-] | discriminate].
    eapply hoare_bind_log;
      [intros w; apply J_built_rest, (Hrest (total_seconds p2 - total_seconds offset)) |].
    destruct (Z.gtb_spec (total_seconds (minus vt2 vt1)) 25); [lia |].
    eapply hoare_bind; [apply hoare_ret | intros ?].
    apply hoare_bind_path_exists. intros present.
    intros w HJ.
    apply (hoare_run_unless_present (S r) (S r) present RestSeg _
             (proj2 (Hrest (total_seconds p2 - total_seconds offset)))).
    apply (J_mono (S r) r); [lia | exact HJ].
  - rewrite ffmpeg_cmd_one.
    apply hoare_bind_lift; [intros c [= <-] | discriminate].
    eapply hoare_bind_log;
      [intros w; apply J_built_rest,
                  (Hrest (total_seconds vt1 + total_seconds rest_time)) |].
    eapply hoare_bind with (Q := fun _ => J (S r) (S r)).
    + destruct (total_seconds (minus vt2 vt1) >? 25).
      * apply hoare_bind_lift;
          [intros c2 Hc2
          | intros e w He HJ; apply (EJ_of_J _ _ _ _ (ffmpeg_cmd_error _ _ _ _ _ _ He) HJ)].
        destruct (ffmpeg_cmd_ok _ _ _ _ _ _ Hc2) as [-> _].
        eapply hoare_bind_log; [intros w; apply J_built_vel, Hvel |].
        apply hoare_bind_path_exists. intros present.
        apply hoare_run_unless_present, Hvel.
      * intros w HJ. cbn [ret]. apply (J_mono (S r) r); [lia | exact HJ].
    + intros ?. apply hoare_bind_path_exists. intros present.
      apply hoare_run_unless_present,
        (Hrest (total_seconds vt1 + total_seconds rest_time)).
Qed.

Lemma hoare_segments_loop (rest_time offset : VideoTimestamp)
    (timestamps : list string) :
  forall (i r : nat),
  hoare (J r r)
    (segments_loop raw run_tool input_file stem suffix in_out_folder
       rest_time offset i timestamps)
    (fun _ => J (r + (List.length timestamps - 1)) (r + (List.length timestamps - 1)))
    EJ.
Proof.
  induction timestamps as [| t1 later IH]; intros i r.
  - cbn. rewrite Nat.add_0_r. apply hoare_ret.
  - destruct later as [| t2 later].
    + cbn. rewrite Nat.add_0_r. apply hoare_ret.
    + cbn [segments_loop].
      eapply hoare_bind; [apply hoare_pair_step | intros ?].
      eapply hoare_weaken; [apply (IH (S i) (S r)) | auto |].
      intros ? w. cbn [List.length].
      replace (r + (S (S (List.length later)) - 1))%nat
        with (S r + (S (List.length later) - 1))%nat by lia.
      auto.
Qed.

Lemma hoare_process_video (timestamps : list string) (rest_time : string) :
  hoare (J 0 0)
    (process_video raw run_tool input_file stem suffix in_out_folder
       timestamps rest_time)
    (fun _ => J (List.length timestamps - 1) (List.length timestamps - 1)) EJ.
Proof.
  unfold process_video.
  apply hoare_bind_lift;
    [intros offset _ | intros e w He; apply EJ_of_J, (parse_error_is_planner_error _ _ He)].
  apply hoare_bind_lift;
    [intros rest _ | intros e w He; apply EJ_of_J, (parse_error_is_planner_error _ _ He)].
  apply (hoare_segments_loop rest offset timestamps 0 0).
Qed.

Lemma J_init (existing : list string) : J 0 0 (init_world existing).
Proof. repeat split; constructor. Qed.

Lemma process_video_outcome (timestamps : list string) (rest_time : string)
    (existing : list string) :
  match process_video raw run_tool input_file stem suffix in_out_folder
          timestamps rest_time (init_world existing) with
  | (Ok _, w') =>
      J (List.length timestamps - 1) (List.length timestamps - 1) w'
  | (Err e, w') => EJ e w'
  end.
Proof. apply hoare_process_video, J_init. Qed.

(** X17: every command that a run builds or hands to the external tool
    reads the input file, writes the output named after some pair and
    its kind ("1" for rest, "2" for accelerated), and seeks to strings
    made by [from_seconds], whatever the input strings looked like. *)
Theorem process_video_commands_well_formed (timestamps : list string)
    (rest_time : string) (existing : list string) :
  Forall (well_formed input_file stem suffix in_out_folder)
    (trace
       (snd
          (process_video raw run_tool input_file stem suffix in_out_folder
             timestamps rest_time (init_world existing)))).
Proof.
  pose proof (process_video_outcome timestamps rest_time existing) as H.
  destruct (process_video _ _ _ _ _ _ _ _ _) as [[u | e] w']; apply H.
Qed.

(** X18: a run that returns has built exactly one rest command for each
    pair of consecutive timestamps, and at most as many accelerated
    commands. *)
Theorem process_video_success_counts (timestamps : list string)
    (rest_time : string) (existing : list string) :
  fst (process_video raw run_tool input_file stem suffix in_out_folder
         timestamps rest_time (init_world existing)) = Ok tt ->
  count_built RestSeg
    (trace
       (snd
          (process_video raw run_tool input_file stem suffix in_out_folder
             timestamps rest_time (init_world existing))))
  = (List.length timestamps - 1)%nat
  /\ (count_built VelSeg
        (trace
           (snd
              (process_video raw run_tool input_file stem suffix in_out_folder
                 timestamps rest_time (init_world existing))))
      <= List.length timestamps - 1)%nat.
Proof.
  pose proof (process_video_outcome timestamps rest_time existing) as H.
  destruct (process_video _ _ _ _ _ _ _ _ _) as [[u | e] w'];
    cbn [fst snd]; [intros _ | discriminate].
  destruct H as (_ & H2 & H3). split; assumption.
Qed.


(** X20: with fewer than two timestamps nothing happens: the rest time
    is parsed, the timestamp, if there is one, is not even looked at. *)
Theorem process_video_few_timestamps (timestamps : list string)
    (rest_time : string) (w : world) :
  (List.length timestamps <= 1)%nat ->
  process_video raw run_tool input_file stem suffix in_out_folder
    timestamps rest_time w
  = (match parse rest_time with Ok _ => Ok tt | Err e => Err e end, w).
Proof.
  intros Hlen. unfold process_video, bind, lift.
  change (parse "00:00:00") with (Ok (mkVT "00:00:00" Bar 0 0 0 positive)).
  cbv beta iota. destruct (parse rest_time) as [rest | e]; [| reflexivity].
  destruct timestamps as [| t1 [| t2 later]]; [reflexivity | reflexivity |].
  cbn in Hlen. lia.
Qed.

End RunFacts.

Lemma process_video_success_counts_witness :
  count_built RestSeg
    (trace
       (snd
          (process_video (fun _ => 0) tool_creates_output "in.mp4" "in" ".mp4"
             (fun name => ("out/" ++ name)%string)
             ["00:00:00"; "00:00:40"; "00:00:50"] "00:00:05" (init_world []))))
  = (List.length ["00:00:00"; "00:00:40"; "00:00:50"] - 1)%nat
  /\ (count_built VelSeg
        (trace
           (snd
              (process_video (fun _ => 0%Z) tool_creates_output "in.mp4" "in"
                 ".mp4" (fun name => ("out/" ++ name)%string)
                 ["00:00:00"; "00:00:40"; "00:00:50"] "00:00:05"
                 (init_world []))))
      <= List.length ["00:00:00"; "00:00:40"; "00:00:50"] - 1)%nat.
Proof.
  apply (process_video_success_counts (fun _ => 0) tool_creates_output
           "in.mp4" "in" ".mp4" (fun name => ("out/" ++ name)%string)
           ["00:00:00"; "00:00:40"; "00:00:50"] "00:00:05" []).
  vm_compute. reflexivity.
Defined.

Lemma process_video_few_timestamps_witness :
  process_video (fun _ => 0) tool_creates_output "in.mp4" "in" ".mp4"
    (fun name => ("out/" ++ name)%string) ["not a timestamp"] "00:00:05"
    (init_world [])
  = (match parse "00:00:05" with Ok _ => Ok tt | Err e => Err e end,
     init_world []).
Proof.
  apply (process_video_few_timestamps (fun _ => 0) tool_creates_output
           "in.mp4" "in" ".mp4" (fun name => ("out/" ++ name)%string)
           ["not a timestamp"] "00:00:05" (init_world [])).
  cbn. lia.
Defined.
